(** * BibAIFilter: the batch scoring pipeline

    A shallow embedding of the score parser
    ([AIProcessor._parse_result], src/utils/ai_processor.py), of the
    retry loops around the provider calls ([AIProcessor._get_score_*])
    and of the worker loop ([ProcessingThread.run],
    src/ui/worker_thread.py), followed by the properties proved about
    them.

    Conventions of the embedding.
    - A Python [str] is a Rocq [string]; each [ascii] stands for one code
      point in the range 0..255 (the Latin-1 block of Unicode).
    - A Python [int] is a [Z].
    - A Python [float] is an IEEE-754 binary64 value, [pyfloat]; a finite
      one is stored as its sign and its magnitude counted in units of
      2^-1074 (the smallest positive binary64 number), so every finite
      binary64 value is an integer number of units.
    - A Python exception is a value of [exn]; code that may raise returns
      a [result]. *)

From Stdlib Require Import ZArith List String Ascii Bool Lia Sorted.
Import ListNotations.
Local Open Scope string_scope.
Local Open Scope Z_scope.

(** ** Exceptions and fallible computations *)

Inductive exn : Type :=
| ValueError
| OverflowError
| TypeError
| AttributeError
| ZeroDivisionError
| JSONDecodeError
| RecursionError
| ApiError (message : string).

Inductive result (A : Type) : Type :=
| Ok (a : A)
| Raise (e : exn).
Arguments Ok {A} a.
Arguments Raise {A} e.

Definition bind {A B : Type} (c : result A) (k : A -> result B) : result B :=
  match c with
  | Ok a => k a
  | Raise e => Raise e
  end.

Declare Scope py_scope.
Delimit Scope py_scope with py.
Notation "x <- c ;; k" := (bind c (fun x => k))
  (at level 61, c at next level, right associativity) : py_scope.

(** [except ValueError]: [json.JSONDecodeError] is a subclass of
    [ValueError]. *)
Definition is_ValueError (e : exn) : bool :=
  match e with
  | ValueError | JSONDecodeError => true
  | _ => false
  end.

Definition is_JSONDecodeError (e : exn) : bool :=
  match e with
  | JSONDecodeError => true
  | _ => false
  end.

(** ** Python string operations *)

Module PyStr.

Definition code (c : ascii) : Z := Z.of_N (N_of_ascii c).

(** [str.isspace] on the code points 0..255. *)
Definition isspace (c : ascii) : bool :=
  let n := code c in
  ((9 <=? n) && (n <=? 13)) || ((28 <=? n) && (n <=? 32))
  || (n =? 133) || (n =? 160).

(** [\d] of the [re] module on the code points 0..255: the decimal
    digits of that range are 0..9. *)
Definition isdigit (c : ascii) : bool :=
  let n := code c in (48 <=? n) && (n <=? 57).

Fixpoint lstrip_by (p : ascii -> bool) (s : string) : string :=
  match s with
  | EmptyString => EmptyString
  | String c s' => if p c then lstrip_by p s' else s
  end.

(** Drops the longest suffix whose characters all satisfy [p]. *)
Fixpoint rstrip_by (p : ascii -> bool) (s : string) : string :=
  match s with
  | EmptyString => EmptyString
  | String c s' =>
      match rstrip_by p s' with
      | EmptyString => if p c then EmptyString else String c EmptyString
      | r => String c r
      end
  end.

(** [s.strip()] *)
Definition strip (s : string) : string := rstrip_by isspace (lstrip_by isspace s).

(** [s.rstrip('.')] *)
Definition rstrip_dot (s : string) : string :=
  rstrip_by (fun c => code c =? 46) s.

Fixpoint drop (n : nat) (s : string) : string :=
  match n, s with
  | O, _ => s
  | S n', String _ s' => drop n' s'
  | S _, EmptyString => EmptyString
  end.

(** [sub in s] *)
Fixpoint contains (sub s : string) : bool :=
  prefix sub s ||
  match s with
  | EmptyString => false
  | String _ s' => contains sub s'
  end.

(** [s.split(sep)[-1]] for a non-empty [sep]: the separators are found
    left to right without overlap, [skip] counts the characters of the
    separator still to be passed over and [last] is the text after the
    latest separator. *)
Fixpoint after_last (sep : string) (skip : nat) (s last : string) : string :=
  match s with
  | EmptyString => last
  | String _ s' =>
      match skip with
      | S k => after_last sep k s' last
      | O =>
          if prefix sep s
          then after_last sep (Nat.pred (String.length sep)) s'
                          (drop (String.length sep) s)
          else after_last sep O s' last
      end
  end.

Definition split_last (sep s : string) : string := after_last sep O s s.

(** [str.lower] on the code points 0..255. *)
Definition lower_char (c : ascii) : ascii :=
  let n := code c in
  if ((65 <=? n) && (n <=? 90))
     || ((192 <=? n) && (n <=? 222) && negb (n =? 215))
  then ascii_of_N (Z.to_N (n + 32))
  else c.

Fixpoint lower (s : string) : string :=
  match s with
  | EmptyString => EmptyString
  | String c s' => String (lower_char c) (lower s')
  end.

(** The first match of [\d+], i.e. [re.findall(r'\d+', s)[0]] when the
    list is not empty. *)
Fixpoint take_digits (s : string) : string :=
  match s with
  | EmptyString => EmptyString
  | String c s' => if isdigit c then String c (take_digits s') else EmptyString
  end.

Fixpoint first_digit_run (s : string) : option string :=
  match s with
  | EmptyString => None
  | String c s' => if isdigit c then Some (take_digits s) else first_digit_run s'
  end.

End PyStr.

(** ** Binary64 floating point *)

Module PyFloat.

Inductive pyfloat : Type :=
| FNan
| FInf (neg : bool)
| FFin (neg : bool) (units : Z).

(** 1.0 counted in units of 2^-1074. *)
Definition one_units : Z := 2 ^ 1074.

(** 2^1024 in units: the least magnitude that rounds to infinity. *)
Definition overflow_units : Z := 2 ^ 2098.

(** Nearest integer to [n / d], ties to even ([d > 0]). *)
Definition rne (n d : Z) : Z :=
  let q := n / d in
  let r := n mod d in
  if 2 * r <? d then q
  else if d <? 2 * r then q + 1
  else if Z.even q then q else q + 1.

(** Binary exponent of the last place of the binary64 numbers around
    [a / d] units: 53 significant bits, and never below one unit. *)
Definition ulp_shift (a d : Z) : Z := Z.max 0 (Z.log2 (a / d) - 52).

(** The binary64 magnitude (in units) nearest to [a / d] units, ties to
    even, before the overflow test ([0 <= a], [0 < d]). *)
Definition round_units (a d : Z) : Z :=
  let x := ulp_shift a d in
  rne a (d * 2 ^ x) * 2 ^ x.

(** Rounding of the exact magnitude [a / d] units with the given sign;
    too large a magnitude becomes an infinity. *)
Definition mk_float (neg : bool) (a d : Z) : pyfloat :=
  let n := round_units a d in
  if overflow_units <=? n then FInf neg else FFin neg n.

(** [float(z)] for an int [z]. *)
Definition float_of_int (z : Z) : result pyfloat :=
  match mk_float (z <? 0) (Z.abs z * one_units) 1 with
  | FInf _ => Raise OverflowError
  | f => Ok f
  end.

(** [a / b] for two ints (true division). *)
Definition int_truediv (a b : Z) : result pyfloat :=
  if b =? 0 then Raise ZeroDivisionError
  else
    match mk_float (xorb (a <? 0) (b <? 0)) (Z.abs a * one_units) (Z.abs b) with
    | FInf _ => Raise OverflowError
    | f => Ok f
    end.

(** [x * y] for two floats. *)
Definition float_mul (x y : pyfloat) : pyfloat :=
  match x, y with
  | FNan, _ | _, FNan => FNan
  | FInf s1, FInf s2 => FInf (xorb s1 s2)
  | FInf s1, FFin s2 n | FFin s1 n, FInf s2 =>
      if n =? 0 then FNan else FInf (xorb s1 s2)
  | FFin s1 n1, FFin s2 n2 => mk_float (xorb s1 s2) (n1 * n2) one_units
  end.

(** [int(x)] for a float: truncation toward zero. *)
Definition int_of_float (x : pyfloat) : result Z :=
  match x with
  | FNan => Raise ValueError
  | FInf _ => Raise OverflowError
  | FFin neg n => Ok (if neg then - (n / one_units) else n / one_units)
  end.

(** The signed value of a finite float as a fraction
    [signed_units / one_units]. *)
Definition signed_units (neg : bool) (n : Z) : Z := if neg then - n else n.

(** [x >= y] for two floats (false when either is a NaN). *)
Definition float_ge (x y : pyfloat) : bool :=
  match x, y with
  | FNan, _ | _, FNan => false
  | FInf s1, FInf s2 => negb s1 || s2
  | FInf s1, FFin _ _ => negb s1
  | FFin _ _, FInf s2 => s2
  | FFin s1 n1, FFin s2 n2 => signed_units s2 n2 <=? signed_units s1 n1
  end.

(** [z >= y] for an int and a float: Python compares the exact values. *)
Definition int_ge_float (z : Z) (y : pyfloat) : bool :=
  match y with
  | FNan => false
  | FInf s => s
  | FFin s n => signed_units s n <=? z * one_units
  end.

(** *** [float(s)] for a string *)

Import PyStr.

(** [Py_ISSPACE]: the white space of the C locale. *)
Definition c_isspace (c : ascii) : bool :=
  let n := code c in ((9 <=? n) && (n <=? 13)) || (n =? 32).

Fixpoint is_ascii (s : string) : bool :=
  match s with
  | EmptyString => true
  | String c s' => (code c <? 128) && is_ascii s'
  end.

Fixpoint transform_decimal_and_space (s : string) : string :=
  match s with
  | EmptyString => EmptyString
  | String c s' =>
      if code c <? 127 then String c (transform_decimal_and_space s')
      else if isspace c then String " "%char (transform_decimal_and_space s')
      else String "?"%char EmptyString
  end.

(** [_PyUnicode_TransformDecimalAndSpaceToASCII]: an ASCII text is
    returned as it is; otherwise code points below 127 are kept, other
    white space becomes a blank, and the text is cut after the first
    other character, which becomes a question mark. *)
Definition to_ascii_decimal (s : string) : string :=
  if is_ascii s then s else transform_decimal_and_space s.

(** [_Py_string_to_number_with_underscores]: an underscore is accepted
    only between two digits, and is removed. [prev] is the previous
    character. *)
Fixpoint strip_underscores (prev : ascii) (s : string) : option string :=
  match s with
  | EmptyString => if (code prev =? 95) then None else Some EmptyString
  | String c s' =>
      if code c =? 95 then
        if isdigit prev then strip_underscores c s' else None
      else if (code prev =? 95) && negb (isdigit c) then None
      else option_map (String c) (strip_underscores c s')
  end.

Fixpoint digits_value (acc : Z) (s : string) : Z :=
  match s with
  | EmptyString => acc
  | String c s' => digits_value (10 * acc + (code c - 48)) s'
  end.

Fixpoint skip_digits (s : string) : string :=
  match s with
  | EmptyString => EmptyString
  | String c s' => if isdigit c then skip_digits s' else s
  end.

(** An optional sign: whether it is a minus, and the rest. *)
Definition read_sign (s : string) : bool * string :=
  match s with
  | String c s' =>
      if code c =? 45 then (true, s')
      else if code c =? 43 then (false, s')
      else (false, s)
  | EmptyString => (false, s)
  end.

(** The exponent part [(e|E) [sign] digits] at the end of a number;
    [None] when the characters left are not an exponent. *)
Definition read_exponent (s : string) : option Z :=
  match s with
  | EmptyString => Some 0
  | String c s' =>
      if (code c =? 101) || (code c =? 69) then
        let '(eneg, s1) := read_sign s' in
        let ds := take_digits s1 in
        match ds, skip_digits s1 with
        | String _ _, EmptyString =>
            let e := digits_value 0 ds in
            Some (if eneg then - e else e)
        | _, _ => None
        end
      else None
  end.

(** A decimal number [[sign] digits [. [digits]] [exponent]] or
    [[sign] . digits [exponent]], read in full: its sign, the integer
    [d] written by its digits and the power [k] of ten, for the value
    [d * 10^k]. *)
Definition read_decimal (s : string) : option (bool * Z * Z) :=
  let '(neg, s1) := read_sign s in
  let ip := take_digits s1 in
  let s2 := skip_digits s1 in
  let '(fp, s3) :=
    match s2 with
    | String c s2' =>
        if code c =? 46 then (take_digits s2', skip_digits s2') else (EmptyString, s2)
    | EmptyString => (EmptyString, s2)
    end in
  match ip ++ fp with
  | EmptyString => None
  | ds =>
      match read_exponent s3 with
      | Some e => Some (neg, digits_value 0 ds, e - Z.of_nat (String.length fp))
      | None => None
      end
  end.

(** [_Py_parse_inf_or_nan]: an optional sign and one of [inf],
    [infinity], [nan], in any letter case. *)
Definition read_inf_or_nan (s : string) : option pyfloat :=
  let '(neg, s1) := read_sign s in
  let w := lower s1 in
  if String.eqb w "inf" || String.eqb w "infinity" then Some (FInf neg)
  else if String.eqb w "nan" then Some FNan
  else None.

(** The binary64 value nearest to [d * 10^k], with the given sign. *)
Definition decimal_to_float (neg : bool) (d k : Z) : pyfloat :=
  if 0 <=? k then mk_float neg (d * 10 ^ k * one_units) 1
  else mk_float neg (d * one_units) (10 ^ (- k)).

(** [float(s)] *)
Definition float_of_str (s : string) : result pyfloat :=
  match rstrip_by c_isspace (lstrip_by c_isspace (to_ascii_decimal s)) with
  | EmptyString => Raise ValueError
  | t =>
      match strip_underscores "000"%char t with
      | None => Raise ValueError
      | Some u =>
          match read_decimal u with
          | Some (neg, d, k) => Ok (decimal_to_float neg d k)
          | None =>
              match read_inf_or_nan u with
              | Some f => Ok f
              | None => Raise ValueError
              end
          end
      end
  end.

End PyFloat.

(** ** Python values *)

Import PyFloat.

(** The values the pipeline handles: what [json.loads] returns, and the
    scores that travel from the provider functions to the worker. *)
#[warnings="-register-all"] Inductive pyval : Type :=
| PNone
| PBool (b : bool)
| PInt (z : Z)
| PFloat (f : pyfloat)
| PStr (s : string)
| PList (items : list pyval)
| PDict (items : list (string * pyval)).

(** [float(v)] *)
Definition py_float (v : pyval) : result pyfloat :=
  match v with
  | PStr s => float_of_str s
  | PInt z => float_of_int z
  | PBool b => Ok (FFin false (if b then one_units else 0))
  | PFloat f => Ok f
  | PNone | PList _ | PDict _ => Raise TypeError
  end.

(** [int(float(v))] *)
Definition int_float (v : pyval) : result Z :=
  (f <- py_float v ;; int_of_float f)%py.

Fixpoint dict_lookup (key : string) (items : list (string * pyval)) : option pyval :=
  match items with
  | [] => None
  | (k, v) :: rest => if String.eqb k key then Some v else dict_lookup key rest
  end.

(** [v.get(key, default)]: only a dict has the method. *)
Definition py_get (v : pyval) (key : string) (default : pyval) : result pyval :=
  match v with
  | PDict items =>
      Ok (match dict_lookup key items with Some x => x | None => default end)
  | _ => Raise AttributeError
  end.

(** [max(1, min(7, score))] *)
Definition clamp_score (score : Z) : Z := Z.max 1 (Z.min 7 score).

(** ** The score parser *)

Module Parser.

Import PyStr.

(** The vocabulary of the lexical fallback, in the order of the dict
    literal. *)
Definition score_keywords : list (string * Z) :=
  [ ("extremely relevant", 7);
    ("very relevant", 6);
    ("moderately relevant", 5);
    ("somewhat relevant", 4);
    ("slightly relevant", 3);
    ("very slightly relevant", 2);
    ("not relevant", 1) ].

(** The loop over [score_keywords.items()]: the highest value among
    the phrases found in [lower_text]. *)
Definition keyword_step (lower_text : string) (found_score : option Z)
           (entry : string * Z) : option Z :=
  let '(keyword, score_value) := entry in
  if contains keyword lower_text then
    match found_score with
    | None => Some score_value
    | Some f => if f <? score_value then Some score_value else found_score
    end
  else found_score.

Definition scan_keywords (lower_text : string) : option Z :=
  fold_left (keyword_step lower_text) score_keywords None.

Section WithJson.

(** [json.loads], of the Python standard library: any function from
    the text to a value or an exception. *)
Variable json_loads : string -> result pyval.

(** The two fields of the processor that the parser reads. *)
Variables provider model : string.

(** The text after the "My answer is:" marker, if present. *)
Definition answer_part (result_text : string) : string :=
  if contains "My answer is:" result_text
  then strip (split_last "My answer is:" result_text)
  else result_text.

(** The clean-up for the Google models that print their thoughts. *)
Definition google_final_part (result_text : string) : string :=
  if String.eqb provider "google"
     && (contains "thinking" model || prefix "gemini-2" model)
  then
    if contains "I need to analyze" result_text
       || contains "Let me analyze" result_text
    then
      if contains "Final answer:" result_text
      then strip (split_last "Final answer:" result_text)
      else if contains "Therefore, the score is" result_text
      then strip (rstrip_dot (strip (split_last "Therefore, the score is" result_text)))
      else result_text
    else result_text
  else result_text.

(** The [except json.JSONDecodeError] handler. *)
Definition keyword_fallback (result_text : string) : Z :=
  match scan_keywords (lower result_text) with
  | Some found_score => found_score
  | None => 4
  end.

(** The [try: json.loads ...] statement. *)
Definition json_attempt (result_text : string) : result Z :=
  match
    (res <- json_loads result_text ;;
     v <- py_get res "score" (PInt 4) ;;
     score <- int_float v ;;
     _ <- py_get res "explanation" (PStr "No explanation provided") ;;
     Ok (clamp_score score))%py
  with
  | Raise e =>
      if is_JSONDecodeError e then Ok (keyword_fallback result_text)
      else Raise e
  | r => r
  end.

(** The regular-expression attempt and what follows it. *)
Definition regex_attempt (result_text : string) : result Z :=
  match first_digit_run result_text with
  | Some number =>
      match int_float (PStr number) with
      | Ok score => Ok (clamp_score score)
      | Raise e =>
          if is_ValueError e then json_attempt result_text else Raise e
      end
  | None => json_attempt result_text
  end.

(** The body of the outer [try] of [_parse_result]. *)
Definition parse_body (result_text : string) : result Z :=
  if String.eqb result_text "" || String.eqb (strip result_text) ""
  then Ok 4
  else
    let result_text := answer_part result_text in
    let result_text := google_final_part result_text in
    let result_text := strip result_text in
    match int_float (PStr result_text) with
    | Ok score => Ok (clamp_score score)
    | Raise e =>
        if is_ValueError e then regex_attempt result_text else Raise e
    end.

(** [AIProcessor._parse_result]: any exception of the body gives the
    default score. *)
Definition _parse_result (result_text : string) : Z :=
  match parse_body result_text with
  | Ok score => score
  | Raise _ => 4
  end.

End WithJson.

End Parser.

(** ** The provider functions and their retry loops *)

Module Retry.

Import PyStr.

(** The fields of the [AIProcessor] the provider functions read and
    write. *)
Record processor : Type := {
  provider : string;
  model : string;
  openai_client : bool;
  google_client : bool
}.

Definition set_model (m : string) (st : processor) : processor :=
  {| provider := provider st; model := m;
     openai_client := openai_client st; google_client := google_client st |}.

Definition set_openai_client (b : bool) (st : processor) : processor :=
  {| provider := provider st; model := model st;
     openai_client := b; google_client := google_client st |}.

Definition set_google_client (b : bool) (st : processor) : processor :=
  {| provider := provider st; model := model st;
     openai_client := openai_client st; google_client := b |}.

(** What a call of a client library does: it returns the text of the
    reply, or raises an exception [e] whose [str(e)] is [message]. *)
Inductive sdk_reply : Type :=
| Reply (content : string)
| ReplyError (message : string).

(** What [requests.post] and the reading of its reply do: an HTTP reply
    with its status code and body text, and for a reply with status 200
    the content of [result["choices"][0]["message"]["content"]]
    ([Ok None] when the reply has no choices, [Raise] when reading it
    raises); or an exception raised by the request. *)
Inductive http_reply : Type :=
| HttpReply (status_code : Z) (text : string) (choice : result (option string))
| HttpError (message : string).

(** What a provider function did, in order. *)
Inductive retry_event : Type :=
| Request (with_model : string)
| Sleep (seconds : Z).

(** A call that returned, with its value, or one still in its loop after
    the given number of rounds. *)
Inductive call_result : Type :=
| Returned (score : pyval) (st : processor) (log : list retry_event)
| Looping (st : processor) (log : list retry_event).

(** [\w] of the [re] module on the code points 0..255. *)
Definition isword (c : ascii) : bool :=
  let n := code c in
  ((48 <=? n) && (n <=? 57)) || ((65 <=? n) && (n <=? 90))
  || ((97 <=? n) && (n <=? 122)) || (n =? 95)
  || (n =? 170) || (n =? 178) || (n =? 179) || (n =? 181)
  || (n =? 185) || (n =? 186) || ((188 <=? n) && (n <=? 190))
  || ((192 <=? n) && (n <=? 214)) || ((216 <=? n) && (n <=? 246))
  || (248 <=? n).

(** [re.search(r'\b([1-7])\b', s)]: the first digit 1..7 with no word
    character on either side; [prev_word] tells whether the character
    before [s] is a word character. *)
Fixpoint search_single_score (prev_word : bool) (s : string) : option Z :=
  match s with
  | EmptyString => None
  | String c s' =>
      let next_word :=
        match s' with
        | EmptyString => false
        | String c' _ => isword c'
        end in
      if negb prev_word && (49 <=? code c) && (code c <=? 55) && negb next_word
      then Some (code c - 48)
      else search_single_score (isword c) s'
  end.

Section WithWorld.

(** The world outside the processor: [json.loads]; whether the
    constructor of a client succeeds; and what the n-th request of a call
    does when sent with a given model. *)
Variable json_loads : string -> result pyval.
Variable client_init_ok : bool.
Variable chat_create : string -> nat -> sdk_reply.
Variable generate_content : string -> nat -> sdk_reply.
Variable http_post : string -> nat -> http_reply.

Definition parse (st : processor) (result_text : string) : pyval :=
  PInt (Parser._parse_result json_loads (provider st) (model st) result_text).

(** [if "429" in error_message or "rate limit" in error_message.lower()] *)
Definition is_rate_limit (error_message : string) : bool :=
  contains "429" error_message || contains "rate limit" (lower error_message).

(** [_get_score_o1_mini]: the text of the reply comes back as it is
    ([_extract_text_from_openai_response] returns the stripped content of
    the first choice, a string). *)
Definition _get_score_o1_mini (st : processor) (n : nat) : call_result :=
  let st := if openai_client st then st else set_openai_client client_init_ok st in
  if negb (openai_client st) then Returned (PInt 4) st []
  else
    match chat_create "o1-mini" n with
    | Reply content => Returned (PStr (strip content)) st [Request "o1-mini"]
    | ReplyError _ => Returned (PInt 4) st [Request "o1-mini"]
    end.

(** The [while True] loop of [_get_score_openai]; [rounds] bounds the
    number of rounds looked at, [n] counts the requests sent. *)
Fixpoint openai_loop (rounds : nat) (st : processor) (n : nat)
         (log : list retry_event) : call_result :=
  match rounds with
  | O => Looping st log
  | S rounds' =>
      let st := if openai_client st then st else set_openai_client client_init_ok st in
      if negb (openai_client st)
      then openai_loop rounds' st n (log ++ [Sleep 2])%list
      else
        let log := (log ++ [Request (model st)])%list in
        match chat_create (model st) n with
        | Reply content => Returned (parse st (strip content)) st log
        | ReplyError error_message =>
            if is_rate_limit error_message
            then openai_loop rounds' st (S n) (log ++ [Sleep 20])%list
            else openai_loop rounds' st (S n) (log ++ [Sleep 2])%list
        end
  end.

(** [_get_score_openai] *)
Definition _get_score_openai (rounds : nat) (st : processor) : call_result :=
  if String.eqb (model st) "o1-mini" then _get_score_o1_mini st O
  else openai_loop rounds st O [].

(** The [while True] loop of [_get_score_deepseek]. *)
Fixpoint deepseek_loop (rounds : nat) (st : processor) (n : nat)
         (log : list retry_event) : call_result :=
  match rounds with
  | O => Looping st log
  | S rounds' =>
      let log := (log ++ [Request (model st)])%list in
      match http_post (model st) n with
      | HttpError _ => deepseek_loop rounds' st (S n) (log ++ [Sleep 2])%list
      | HttpReply status_code error_text choice =>
          if status_code =? 200 then
            match choice with
            | Ok (Some content) => Returned (parse st (strip content)) st log
            | Ok None => deepseek_loop rounds' st (S n) log
            | Raise _ => deepseek_loop rounds' st (S n) (log ++ [Sleep 2])%list
            end
          else if status_code =? 400 then
            if contains "model parameter" (lower error_text)
               || contains "model not found" (lower error_text)
            then deepseek_loop rounds' (set_model "deepseek-chat" st) (S n) log
            else if contains "api key" (lower error_text)
                    || contains "authentication" (lower error_text)
            then Returned (PInt 4) st log
            else deepseek_loop rounds' st (S n) (log ++ [Sleep 2])%list
          else if status_code =? 429
          then deepseek_loop rounds' st (S n) (log ++ [Sleep 20])%list
          else deepseek_loop rounds' st (S n) (log ++ [Sleep 2])%list
      end
  end.

(** [_get_score_deepseek] *)
Definition _get_score_deepseek (rounds : nat) (st : processor) : call_result :=
  deepseek_loop rounds st O [].

(** [_get_score_google]: no loop. *)
Definition _get_score_google (st : processor) : call_result :=
  let st := if google_client st then st else set_google_client client_init_ok st in
  if negb (google_client st) then Returned (PInt 4) st []
  else
    match generate_content (model st) O with
    | Reply text =>
        if String.eqb text "" then Returned (PInt 4) st [Request (model st)]
        else Returned (parse st (strip text)) st [Request (model st)]
    | ReplyError e =>
        let log := [Request (model st)] in
        if contains "model" (lower e) && contains "not found" (lower e)
        then Returned (PInt 4) (set_model "gemini-1.5-flash" st) log
        else Returned (PInt 4) st log
    end.

(** The [while True] loop of [_get_score_with_prompt_openai_reasoning]. *)
Fixpoint reasoning_loop (rounds : nat) (st : processor) (n : nat)
         (log : list retry_event) : call_result :=
  match rounds with
  | O => Looping st log
  | S rounds' =>
      let st := if openai_client st then st else set_openai_client client_init_ok st in
      if negb (openai_client st)
      then reasoning_loop rounds' st n (log ++ [Sleep 2])%list
      else
        let log := (log ++ [Request (model st)])%list in
        match chat_create (model st) n with
        | Reply content =>
            let result := strip content in
            match search_single_score false result with
            | Some score => Returned (PInt score) st log
            | None => Returned (parse st result) st log
            end
        | ReplyError api_error =>
            if contains "model not found" (lower api_error) then
              let original_model := model st in
              let st := set_model "gpt-4o" st in
              let log := (log ++ [Request "gpt-4o"])%list in
              match chat_create "gpt-4o" (S n) with
              | Reply content =>
                  let result_text := strip content in
                  let st := set_model original_model st in
                  Returned (parse st result_text) st log
              | ReplyError _ => Returned (PInt 4) (set_model original_model st) log
              end
            else if is_rate_limit api_error
            then reasoning_loop rounds' st (S n) (log ++ [Sleep 20])%list
            else Returned (PInt 4) st log
        end
  end.

(** [_get_score_with_prompt_openai_reasoning] *)
Definition _get_score_with_prompt_openai_reasoning (rounds : nat) (st : processor)
  : call_result :=
  reasoning_loop rounds st O [].

End WithWorld.

(** The number of requests in a log. *)
Definition requests (log : list retry_event) : nat :=
  List.length (filter (fun e => match e with Request _ => true | Sleep _ => false end) log).

End Retry.

(** ** The worker thread *)

Module Worker.

(** A row of the input sheet: column name and the text [str(cell)]. *)
Definition Row : Type := list (string * string).

(** [str(row.get(col, ''))] *)
Fixpoint row_get (row : Row) (col : string) : string :=
  match row with
  | [] => ""
  | (k, v) :: rest => if String.eqb k col then v else row_get rest col
  end.

(** A row of [processed_data]: the copy of the input row with the keys
    [relevance_score], [is_relevant] and [iteration] added. The time
    stamp is left out. [row_index] is the position of the input row in
    the sheet; the Python dict does not store it, it is kept here so
    that statements can name the record a result belongs to. *)
Record scored_row : Type := {
  source : Row;
  row_index : nat;
  relevance_score : pyval;
  is_relevant : bool;
  iteration : Z
}.

(** The dict written to the "Model Info" sheet (the counts only). *)
Record model_info : Type := {
  total_records : Z;
  processed_records : Z;
  relevant_records : Z;
  info_iterations : Z
}.

(** The texts sent through [progress_update]. *)
Inductive message : Type :=
| MsgStarting
| MsgReadingExcel
| MsgTotalFound (total_rows : Z)
| MsgEachRecord (iterations : Z)
| MsgMaximumRecords (max_records total_rows : Z)
| MsgCancelled
| MsgStartingIteration (iteration : Z)
| MsgMaxReached (iteration : Z)
| MsgMissing (i : nat) (iteration : Z)
| MsgProcessing (iteration : Z) (i : nat) (title : string)
| MsgInputLog (iteration : Z) (i : nat)
| MsgPromptLog (iteration : Z) (i : nat)
| MsgResponseLog (iteration : Z) (i : nat) (score : pyval)
| MsgResult (iteration : Z) (title : string) (score : pyval) (relevant : bool)
| MsgWriting
| MsgCompleted (relevant_count processed_count : Z).

Inductive error_text : Type :=
| NoDataFound
| ProcessingError (e : exn).

(** The signals of the thread, and its two calls to the outside: the
    request to the AI processor and the write of the result file. *)
Inductive event : Type :=
| progress_update (m : message)
| progress_percentage (p : Z)
| processing_complete (processed_count relevant_count : Z)
| error_occurred (t : error_text)
| file_processed (title : string) (score : pyval) (relevant : bool) (iteration : Z)
| ai_request (custom_prompt : bool) (iteration : Z) (i : nat)
| save_excel_data (rows : list scored_row) (info : model_info).

Record state : Type := {
  processed_data : list scored_row;
  relevant_count : Z;
  completed_tasks : Z;
  flag_reads : nat;
  events : list event
}.

(** A statement either completes or raises; the state reached is kept
    in both cases. *)
Inductive outcome : Type :=
| Done (st : state)
| Failed (st : state) (e : exn).

Definition and_then (o : outcome) (k : state -> outcome) : outcome :=
  match o with
  | Done st => k st
  | Failed st e => Failed st e
  end.

Definition emit (e : event) (st : state) : state :=
  {| processed_data := processed_data st;
     relevant_count := relevant_count st;
     completed_tasks := completed_tasks st;
     flag_reads := flag_reads st;
     events := events st ++ [e] |}.

Definition log (m : message) (st : state) : state := emit (progress_update m) st.

Definition append_row (r : scored_row) (st : state) : state :=
  {| processed_data := processed_data st ++ [r];
     relevant_count := relevant_count st;
     completed_tasks := completed_tasks st;
     flag_reads := flag_reads st;
     events := events st |}.

Definition count_relevant (st : state) : state :=
  {| processed_data := processed_data st;
     relevant_count := relevant_count st + 1;
     completed_tasks := completed_tasks st;
     flag_reads := flag_reads st;
     events := events st |}.

Definition count_task (st : state) : state :=
  {| processed_data := processed_data st;
     relevant_count := relevant_count st;
     completed_tasks := completed_tasks st + 1;
     flag_reads := flag_reads st;
     events := events st |}.

Definition count_read (st : state) : state :=
  {| processed_data := processed_data st;
     relevant_count := relevant_count st;
     completed_tasks := completed_tasks st;
     flag_reads := S (flag_reads st);
     events := events st |}.

Definition initial_state : state :=
  {| processed_data := [];
     relevant_count := 0;
     completed_tasks := 0;
     flag_reads := 0;
     events := [] |}.

(** The providers [get_relevance_score] dispatches on. *)
Definition supported_provider (provider : string) : bool :=
  existsb (String.eqb provider)
    ["openai"; "anthropic"; "google"; "deepseek"; "mistral"; "cohere"; "azure-openai"].

(** [AIProcessor.get_relevance_score] and
    [AIProcessor.get_relevance_score_with_prompt]: [provider_call] is
    what the function of the provider does, a value returned or an
    exception raised; an unknown provider and any exception give 0.0. *)
Definition get_relevance_score (provider : string) (provider_call : result pyval) : pyval :=
  match (if supported_provider provider then provider_call
         else Ok (PFloat (FFin false 0))) with
  | Ok v => v
  | Raise _ => PFloat (FFin false 0)
  end.

(** [relevance_score >= self.threshold] *)
Definition score_ge (score : pyval) (threshold : pyfloat) : result bool :=
  match score with
  | PInt z => Ok (int_ge_float z threshold)
  | PBool b => Ok (int_ge_float (if b then 1 else 0) threshold)
  | PFloat f => Ok (float_ge f threshold)
  | PNone | PStr _ | PList _ | PDict _ => Raise TypeError
  end.

(** [int((completed_tasks / total_tasks) * 100)] *)
Definition progress_value (completed_tasks total_tasks : Z) : result Z :=
  (q <- int_truediv completed_tasks total_tasks ;;
   h <- float_of_int 100 ;;
   int_of_float (float_mul q h))%py.

(** [range(1, n + 1)] *)
Definition range_from_1 (n : Z) : list Z :=
  map Z.of_nat (seq 1 (Z.to_nat n)).

Section Run.

(** The parameters of the thread. The keywords and categories columns,
    the topic and the text of the prompt only go into the request sent
    to the provider, which [provider_call] below stands for. *)
Variables title_col abstract_col : string.
Variable prompt_template : option string.
Variable provider : string.
Variable threshold : pyfloat.
Variable max_records : Z.
Variable iterations : Z.

(** The outside of the thread: what the function of the provider
    does for the request of record [i] in a given iteration (with the
    custom prompt or not), and the number of reads of
    [terminate_flag] that see it unset ([None]: it is never set). *)
Variable provider_call : bool -> Z -> nat -> result pyval.
Variable cancel_at : option nat.

(** A read of [self.terminate_flag]. *)
Definition read_flag (st : state) : bool * state :=
  (match cancel_at with
   | Some n => (n <=? flag_reads st)%nat
   | None => false
   end, count_read st).

(** [if self.prompt_template:] *)
Definition has_prompt : bool :=
  match prompt_template with
  | Some t => negb (String.eqb t "")
  | None => false
  end.

Definition first_two (i : nat) (iteration : Z) : bool :=
  (i <? 2)%nat && (iteration =? 1).

Definition log_if (b : bool) (m : message) (st : state) : state :=
  if b then log m st else st.

(** The part of the loop body after the test for a missing title and
    abstract. *)
Definition score_record (total_rows : Z) (iteration : Z) (i : nat) (row : Row)
           (title : string) (st : state) : outcome :=
  let st := log (MsgProcessing iteration i title) st in
  let st := log_if (first_two i iteration) (MsgInputLog iteration i) st in
  let st := log_if (has_prompt && first_two i iteration) (MsgPromptLog iteration i) st in
  let st := emit (ai_request has_prompt iteration i) st in
  let relevance_score :=
    get_relevance_score provider (provider_call has_prompt iteration i) in
  let st := log_if (first_two i iteration) (MsgResponseLog iteration i relevance_score) st in
  match score_ge relevance_score threshold with
  | Raise e => Failed st e
  | Ok relevant =>
      let current_row :=
        {| source := row; row_index := i; relevance_score := relevance_score;
           is_relevant := relevant; iteration := iteration |} in
      let st := if relevant then count_relevant st else st in
      let st := log (MsgResult iteration title relevance_score relevant) st in
      let st := append_row current_row st in
      Done (emit (file_processed title relevance_score relevant iteration) st)
  end.

(** The body of the loop over the records, after the two tests that
    leave the loop. *)
Definition loop_body (total_rows total_tasks : Z) (iteration : Z) (i : nat)
           (row : Row) (st : state) : outcome :=
  let st := count_task st in
  match progress_value (completed_tasks st) total_tasks with
  | Raise e => Failed st e
  | Ok progress =>
      let st := emit (progress_percentage progress) st in
      let title := row_get row title_col in
      let abstract := row_get row abstract_col in
      if String.eqb title "" && String.eqb abstract "" then
        let st := log (MsgMissing i iteration) st in
        Done (if iteration =? 1
              then append_row {| source := row; row_index := i;
                                 relevance_score := PFloat (FFin false 0);
                                 is_relevant := false;
                                 iteration := iteration |} st
              else st)
      else score_record total_rows iteration i row title st
  end.

(** [for i, row in enumerate(data):] from position [i] on. *)
Fixpoint record_loop (total_rows total_tasks : Z) (iteration : Z) (i : nat)
         (rows : list Row) (st : state) : outcome :=
  match rows with
  | [] => Done st
  | row :: rest =>
      let '(flag, st) := read_flag st in
      if flag then Done (log MsgCancelled st)
      else if (0 <? max_records) && (max_records <=? Z.of_nat i)
      then Done (log (MsgMaxReached iteration) st)
      else
        and_then (loop_body total_rows total_tasks iteration i row st)
                 (record_loop total_rows total_tasks iteration (S i) rest)
  end.

(** [for iteration in range(1, self.iterations + 1):] *)
Fixpoint iteration_loop (data : list Row) (total_rows total_tasks : Z)
         (its : list Z) (st : state) : outcome :=
  match its with
  | [] => Done st
  | iteration :: rest =>
      let '(flag, st) := read_flag st in
      if flag then Done (log MsgCancelled st)
      else
        let st := log (MsgStartingIteration iteration) st in
        and_then (record_loop total_rows total_tasks iteration O data st)
                 (iteration_loop data total_rows total_tasks rest)
  end.

(** [len(data[:self.max_records if self.max_records > 0 else len(data)])] *)
Definition processed_records_count (data : list Row) : Z :=
  if 0 <? max_records
  then Z.of_nat (List.length (firstn (Z.to_nat max_records) data))
  else Z.of_nat (List.length data).

(** The statements after the loops. *)
Definition finish (data : list Row) (total_rows : Z) (st : state) : outcome :=
  let '(flag, st) := read_flag st in
  if flag then Done st
  else
    let st := log MsgWriting st in
    let info :=
      {| total_records := total_rows;
         processed_records := processed_records_count data;
         relevant_records := relevant_count st;
         info_iterations := iterations |} in
    let st := emit (save_excel_data (processed_data st) info) st in
    let st := emit (progress_percentage 100) st in
    if iterations =? 0 then Failed st ZeroDivisionError
    else
      let processed_count := Z.of_nat (List.length (processed_data st)) / iterations in
      let st := log (MsgCompleted (relevant_count st) processed_count) st in
      Done (emit (processing_complete processed_count (relevant_count st)) st).

(** The number of records one iteration goes through. *)
Definition effective_total (total_rows : Z) : Z :=
  if (0 <? max_records) && (max_records <? total_rows)
  then max_records else total_rows.

(** The body of the [try] of [run], from the data read. *)
Definition run_body (load : result (list Row)) : outcome :=
  let st := emit (progress_percentage 0) initial_state in
  let st := log MsgStarting st in
  let st := log MsgReadingExcel st in
  match load with
  | Raise e => Failed st e
  | Ok data =>
      let total_rows := Z.of_nat (List.length data) in
      if total_rows =? 0 then Done (emit (error_occurred NoDataFound) st)
      else
        let st := log (MsgTotalFound total_rows) st in
        let st := log (MsgEachRecord iterations) st in
        let st := log_if ((0 <? max_records) && (max_records <? total_rows))
                         (MsgMaximumRecords max_records total_rows) st in
        let total_tasks := effective_total total_rows * iterations in
        and_then
          (iteration_loop data total_rows total_tasks (range_from_1 iterations) st)
          (finish data total_rows)
  end.

(** [ProcessingThread.run]: the state when the thread ends. *)
Definition run (load : result (list Row)) : state :=
  match run_body load with
  | Done st => st
  | Failed st e => emit (error_occurred (ProcessingError e)) st
  end.

End Run.

End Worker.

(** * The vocabulary of the statements *)

Module Spec.

Import PyStr Worker.

(** ** Decimal numerals *)

Fixpoint string_forall (p : ascii -> bool) (s : string) : bool :=
  match s with
  | EmptyString => true
  | String c s' => p c && string_forall p s'
  end.

(** The numeral written with an optional minus sign, the digits [ip]
    and, unless [fp] is empty, a point and the digits [fp]. *)
Definition numeral (neg : bool) (ip fp : string) : string :=
  (if neg then "-" else "") ++ ip ++ (if String.eqb fp "" then "" else "." ++ fp).

(** The characters of such a numeral have their codes in 45..57. *)
Definition numeral_char (c : ascii) : bool := (45 <=? code c) && (code c <=? 57).

(** The number a string of digits denotes, the first digit weighing
    most. *)
Fixpoint digits_number (s : string) : Z :=
  match s with
  | EmptyString => 0
  | String c s' => (code c - 48) * 10 ^ Z.of_nat (String.length s') + digits_number s'
  end.

(** The value of a numeral is [numeral_numerator / numeral_denominator]. *)
Definition numeral_numerator (neg : bool) (ip fp : string) : Z :=
  let d := digits_number (ip ++ fp) in if neg then - d else d.

Definition numeral_denominator (fp : string) : Z := 10 ^ Z.of_nat (String.length fp).

(** Whether the parser cleans up the thoughts of a Google model. *)
Definition google_thinking (provider model : string) : bool :=
  String.eqb provider "google" && (contains "thinking" model || prefix "gemini-2" model).

Local Close Scope string_scope.

(** ** Progress values *)

(** [int((c / t) * 100)] spelled out for [0 <= c <= t] and [0 < t]: the
    quotient rounded to binary64, its product by 100 rounded to binary64,
    and the integer part of that. *)
Definition progress_units (c t : Z) : Z :=
  round_units (round_units (c * one_units) t * (100 * one_units)) one_units.

Definition progress_of (c t : Z) : Z := progress_units c t / one_units.

(** The progress values of the first [k] tasks out of [t]. *)
Definition task_progress (t : Z) (k : nat) : list Z :=
  map (fun c => progress_of (Z.of_nat c) t) (seq 1 k).

(** The values sent through [progress_percentage], in order. *)
Fixpoint progress_values (evs : list event) : list Z :=
  match evs with
  | [] => []
  | progress_percentage p :: rest => p :: progress_values rest
  | _ :: rest => progress_values rest
  end.

(** ** Events and results of the worker *)

(** The test of the record loop on the record cap. *)
Definition capped (max_records : Z) (i : nat) : bool :=
  (0 <? max_records) && (max_records <=? Z.of_nat i).

(** The events other than the write of the result file, the completion
    signal and the error signal. *)
Definition quiet (e : event) : bool :=
  match e with
  | save_excel_data _ _ | processing_complete _ _ | error_occurred _ => false
  | _ => true
  end.

Definition cancel_event : event := progress_update MsgCancelled.

Definition is_cancel (e : event) : bool :=
  match e with
  | progress_update MsgCancelled => true
  | _ => false
  end.

Definition is_save (e : event) : bool :=
  match e with
  | save_excel_data _ _ => true
  | _ => false
  end.

Definition is_complete (e : event) : bool :=
  match e with
  | processing_complete _ _ => true
  | _ => false
  end.

(** The events the body of the record loop sends. *)
Definition loop_event (e : event) : bool := quiet e && negb (is_cancel e).

(** A request to the AI processor is made for record [i] only, and only
    if the record is not skipped. *)
Definition request_for (i : nat) (skipped : bool) (e : event) : bool :=
  match e with
  | ai_request _ _ k => (k =? i)%nat && negb skipped
  | _ => true
  end.

Definition final (o : outcome) : state :=
  match o with
  | Done st => st
  | Failed st _ => st
  end.

(** [not title and not abstract] *)
Definition empty_record (title_col abstract_col : string) (row : Row) : bool :=
  String.eqb (row_get row title_col) "" && String.eqb (row_get row abstract_col) "".

(** The row appended for a record without title and abstract. *)
Definition zero_row (i : nat) (row : Row) (it : Z) : scored_row :=
  {| source := row; row_index := i; relevance_score := PFloat (FFin false 0);
     is_relevant := false; iteration := it |}.

(** The rows of the results that come from record [j] of the sheet. *)
Definition rows_of (j : nat) (rows : list scored_row) : list scored_row :=
  filter (fun r => (row_index r =? j)%nat) rows.

(** What a run that goes through all its iterations collects, said
    without the loops: in every iteration, for every record up to the
    cap, a record without title and abstract gives a row with score 0 in
    the first iteration and nothing later, any other record gives a row
    with the score of the processor. *)
Section Expected.

Variables title_col abstract_col : string.
Variable prompt_template : option string.
Variable provider : string.
Variable threshold : pyfloat.
Variable max_records : Z.
Variable provider_call : bool -> Z -> nat -> result pyval.

Definition scored (it : Z) (i : nat) (row : Row) : scored_row :=
  let score :=
    get_relevance_score provider (provider_call (has_prompt prompt_template) it i) in
  {| source := row; row_index := i; relevance_score := score;
     is_relevant := match score_ge score threshold with Ok b => b | Raise _ => false end;
     iteration := it |}.

Definition row_result (it : Z) (i : nat) (row : Row) : list scored_row :=
  if empty_record title_col abstract_col row
  then if it =? 1 then [zero_row i row it] else []
  else [scored it i row].

Fixpoint records_result (it : Z) (i : nat) (rows : list Row) : list scored_row :=
  match rows with
  | [] => []
  | row :: rest => row_result it i row ++ records_result it (S i) rest
  end.

(** The number of records an iteration goes through. *)
Definition handled_count (data : list Row) : nat :=
  if 0 <? max_records then Nat.min (Z.to_nat max_records) (List.length data)
  else List.length data.

Definition iteration_result (data : list Row) (it : Z) : list scored_row :=
  records_result it 0 (firstn (handled_count data) data).

Definition expected_rows (data : list Row) (n : nat) : list scored_row :=
  flat_map (fun a => iteration_result data (Z.of_nat (S a))) (seq 0 n).

End Expected.

(** ** Invariants of the loops of the worker *)

Section Invariants.

Variables title_col abstract_col : string.
Variable prompt_template : option string.
Variable provider : string.
Variable threshold : pyfloat.
Variable max_records : Z.
Variable iterations : Z.
Variable provider_call : bool -> Z -> nat -> result pyval.
Variable cancel_at : option nat.
Variable data : list Row.

(** No write, completion or error so far, and no more rows than tasks
    started. *)
Definition base (st : state) : Prop :=
  forallb quiet (events st) = true
  /\ Z.of_nat (List.length (processed_data st)) <= completed_tasks st.

(** The flag has not been seen set. *)
Definition running (st : state) : Prop := existsb is_cancel (events st) = false.

(** The flag is set and has been seen set [k] times, at the end of the
    trace. *)
Definition cancelled (k : nat) (st : state) : Prop :=
  fst (read_flag cancel_at st) = true
  /\ exists pre, events st = pre ++ repeat cancel_event k /\ existsb is_cancel pre = false.

Definition expected (n : nat) : list scored_row :=
  expected_rows title_col abstract_col prompt_template provider threshold max_records
                provider_call data n.

Definition trace_outer (a : nat) (st : state) : Prop :=
  base st /\ (cancelled 1 st \/ (running st /\ processed_data st = expected a)).

Definition trace_inner (a i : nat) (st : state) : Prop :=
  base st /\ running st
  /\ (i <= handled_count max_records data)%nat
  /\ processed_data st
     = expected a
       ++ records_result title_col abstract_col prompt_template provider threshold
                         provider_call (Z.of_nat (S a)) 0 (firstn i data).

Definition trace_final (n : nat) (st : state) : Prop :=
  base st
  /\ (cancelled 1 st \/ cancelled 2 st \/ (running st /\ processed_data st = expected n)).

Definition trace_fail (st : state) : Prop := base st /\ running st.

(** The ways a run over a sheet that was read can end. *)
Inductive run_end (st : state) : Prop :=
| end_no_data :
    data = [] ->
    existsb is_cancel (events st) = false ->
    forallb (fun e => negb (is_complete e)) (events st) = true ->
    run_end st
| end_failed (s : state) (e : exn) :
    base s -> running s ->
    events st = events s ++ [error_occurred (ProcessingError e)] ->
    run_end st
| end_cancelled (k : nat) (pre : list event) :
    (k = 1 \/ k = 2)%nat ->
    base st ->
    events st = pre ++ repeat cancel_event k ->
    existsb is_cancel pre = false ->
    run_end st
| end_late (s : state) :
    base st -> running st -> fst (read_flag cancel_at s) = true -> st = count_read s ->
    run_end st
| end_complete (s : state) :
    iterations <> 0 ->
    base s -> running s ->
    processed_data s = expected (Z.to_nat iterations) ->
    processed_data st = processed_data s ->
    events st
    = events s
      ++ [progress_update MsgWriting;
          save_excel_data (processed_data s)
            {| total_records := Z.of_nat (List.length data);
               processed_records := processed_records_count max_records data;
               relevant_records := relevant_count s;
               info_iterations := iterations |};
          progress_percentage 100;
          progress_update
            (MsgCompleted (relevant_count s)
                          (Z.of_nat (List.length (processed_data s)) / iterations));
          processing_complete (Z.of_nat (List.length (processed_data s)) / iterations)
                              (relevant_count s)] ->
    run_end st
| end_zero_iterations (s : state) :
    iterations = 0 ->
    base s -> running s ->
    events st
    = events s
      ++ [progress_update MsgWriting;
          save_excel_data (processed_data s)
            {| total_records := Z.of_nat (List.length data);
               processed_records := processed_records_count max_records data;
               relevant_records := relevant_count s;
               info_iterations := iterations |};
          progress_percentage 100;
          error_occurred (ProcessingError ZeroDivisionError)] ->
    run_end st.

(** The progress values sent so far are those of the tasks started, out
    of [total_tasks]. *)
Definition progress_so_far (total_tasks : Z) (st : state) : Prop :=
  0 <= completed_tasks st
  /\ progress_values (events st)
     = 0 :: task_progress total_tasks (Z.to_nat (completed_tasks st)).

Definition prog_outer (eff total_tasks : Z) (a : nat) (st : state) : Prop :=
  progress_so_far total_tasks st /\ completed_tasks st <= Z.of_nat a * eff.

Definition prog_inner (eff total_tasks : Z) (a i : nat) (st : state) : Prop :=
  progress_so_far total_tasks st
  /\ completed_tasks st <= Z.of_nat a * eff + Z.of_nat i
  /\ Z.of_nat i <= eff.

Definition prog_final (total_tasks : Z) (st : state) : Prop :=
  progress_so_far total_tasks st /\ completed_tasks st <= total_tasks.

(** Record [j], the row [row_j], was never sent to the processor, and
    its rows in the results are rows with score 0 of the first
    iteration. *)
Definition never_requested (j : nat) (row_j : Row) (st : state) : Prop :=
  (forall b it, ~ In (ai_request b it j) (events st))
  /\ (forall r, In r (processed_data st) -> row_index r = j -> r = zero_row j row_j 1).

End Invariants.

End Spec.

(** * Sample inputs *)

Module Examples.

Import Worker.

(** A [json.loads] that rejects every text. *)
Definition json_never (text : string) : result pyval := Raise JSONDecodeError.

Definition sheet_row (title abstract : string) : Row :=
  [("Title", title); ("Abstract", abstract)].

(** Five records, the second without title and abstract. *)
Definition five_records : list Row :=
  [ sheet_row "Deep learning diagnostics" "A CNN for radiology";
    sheet_row "" "";
    sheet_row "Graph theory" "Colourings";
    sheet_row "Soil chemistry" "";
    sheet_row "" "A survey of parsers" ].

Definition one_record : list Row :=
  [ sheet_row "Deep learning diagnostics" "A CNN for radiology" ].

(** The threshold 4.0. *)
Definition threshold_4 : pyfloat := FFin false (4 * one_units).

(** A provider that answers 6 to every request, and one that raises on
    every request. *)
Definition always_6 (custom : bool) (it : Z) (i : nat) : result pyval := Ok (PInt 6).

Definition always_raises (custom : bool) (it : Z) (i : nat) : result pyval :=
  Raise (ApiError "connection reset").

(** Runs of the worker on a sheet with the columns Title and Abstract,
    no prompt template, the provider openai, the threshold 4.0 and no
    record limit. *)
Abbreviation run_with provider_call iterations cancel_at data :=
  (run "Title" "Abstract" None "openai" threshold_4 0 iterations provider_call cancel_at
       (Ok data)).

(** Three iterations over the five records, the flag being set after
    the second of the 15 tasks: the reads of the flag at the top of the
    first iteration and of its first two records see it unset. *)
Abbreviation cancelled_run := (run_with always_6 3 (Some 3%nat) five_records).

(** Three iterations over the five records, never cancelled. *)
Abbreviation full_run := (run_with always_6 3 None five_records).

(** One record, the flag being set while it is scored. *)
Abbreviation late_cancelled_run := (run_with always_6 1 (Some 2%nat) one_record).

(** One record, the provider raising. *)
Abbreviation raising_run := (run_with always_raises 1 None one_record).

(** An OpenAI processor with a chat model, and a world in which every
    request fails with the given message. *)
Definition openai_processor (model : string) : Retry.processor :=
  {| Retry.provider := "openai"; Retry.model := model;
     Retry.openai_client := true; Retry.google_client := false |}.

Definition always_fails (message : string) (model : string) (n : nat) : Retry.sdk_reply :=
  Retry.ReplyError message.

Definition invalid_key_message : string :=
  "Error code: 401 - Incorrect API key provided".

Definition unknown_model_message : string :=
  "Error code: 404 - The model does not exist (model not found)".

(** A DeepSeek processor, and a server that answers 400 "Model Not
    Found" to every request. *)
Definition deepseek_processor (model : string) : Retry.processor :=
  {| Retry.provider := "deepseek"; Retry.model := model;
     Retry.openai_client := false; Retry.google_client := false |}.

Definition always_400 (model : string) (n : nat) : Retry.http_reply :=
  Retry.HttpReply 400 "Model Not Found" (Raise (ApiError "no choices")).

End Examples.

(** * Proofs *)

Import Spec PyStr Parser Worker Examples.
Local Close Scope string_scope.

(** ** Rounding to binary64 *)

Lemma rne_spec (n d : Z) :
  0 < d ->
  2 * n - d <= 2 * rne n d * d <= 2 * n + d
  /\ (2 * rne n d * d = 2 * n + d -> Z.even (rne n d) = true)
  /\ (2 * rne n d * d = 2 * n - d -> Z.even (rne n d) = true).
Proof.
  intros Hd. unfold rne.
  pose proof (Z.div_mod n d ltac:(lia)) as Hn.
  pose proof (Z.mod_pos_bound n d Hd) as Hr.
  set (q := n / d) in *. set (r := n mod d) in *.
  destruct (Z.ltb_spec (2 * r) d) as [H1 | H1].
  - repeat split; nia.
  - destruct (Z.ltb_spec d (2 * r)) as [H2 | H2].
    + repeat split; nia.
    + assert (Hrd : 2 * r = d) by lia.
      destruct (Z.even q) eqn:Hq.
      * repeat split; try nia. intros _. exact Hq.
      * repeat split; try nia; intros _;
          rewrite Z.even_add, Hq; reflexivity.
Qed.

Lemma rne_mono (n1 d1 n2 d2 : Z) :
  0 < d1 -> 0 < d2 -> n1 * d2 <= n2 * d1 -> rne n1 d1 <= rne n2 d2.
Proof.
  intros H1 H2 Hle.
  destruct (rne_spec n1 d1 H1) as [[_ U1] [E1 _]].
  destruct (rne_spec n2 d2 H2) as [[L2 _] [_ E2]].
  set (z1 := rne n1 d1) in *. set (z2 := rne n2 d2) in *.
  destruct (Z_le_gt_dec z1 z2) as [|Hgt]; [assumption | exfalso].
  assert (HU : 2 * z1 * d1 * d2 <= 2 * n2 * d1 + d1 * d2) by nia.
  assert (HL : 2 * n2 * d1 - d1 * d2 <= 2 * z2 * d2 * d1) by nia.
  assert (Hz : z1 = z2 + 1) by nia.
  assert (A1 : 2 * z1 * d1 = 2 * n1 + d1) by nia.
  assert (A2 : 2 * z2 * d2 = 2 * n2 - d2) by nia.
  specialize (E1 A1). specialize (E2 A2).
  rewrite Hz, Z.even_add, E2 in E1. discriminate.
Qed.

Lemma rne_exact (k d : Z) : 0 < d -> rne (k * d) d = k.
Proof.
  intros Hd. unfold rne.
  rewrite Z.div_mul, Z.mod_mul by lia.
  destruct (Z.ltb_spec (2 * 0) d); [reflexivity | lia].
Qed.

Lemma rne_lower (lo n d : Z) : 0 < d -> lo * d <= n -> lo <= rne n d.
Proof.
  intros Hd H. rewrite <- (rne_exact lo d Hd). apply rne_mono; nia.
Qed.

Lemma rne_upper (hi n d : Z) : 0 < d -> n <= hi * d -> rne n d <= hi.
Proof.
  intros Hd H. rewrite <- (rne_exact hi d Hd). apply rne_mono; nia.
Qed.

Lemma div_frac_mono (a1 d1 a2 d2 : Z) :
  0 < d1 -> 0 < d2 -> a1 * d2 <= a2 * d1 -> a1 / d1 <= a2 / d2.
Proof.
  intros H1 H2 Hle.
  apply Z.div_le_lower_bound; [assumption |].
  pose proof (Z.mul_div_le a1 d1 H1). nia.
Qed.

Lemma ulp_shift_mono (a1 d1 a2 d2 : Z) :
  0 < d1 -> 0 < d2 -> a1 * d2 <= a2 * d1 -> ulp_shift a1 d1 <= ulp_shift a2 d2.
Proof.
  intros H1 H2 Hle. unfold ulp_shift.
  pose proof (Z.log2_le_mono _ _ (div_frac_mono _ _ _ _ H1 H2 Hle)). lia.
Qed.

Lemma div_lt_bound (a d k : Z) : 0 < d -> a / d < k -> a < k * d.
Proof.
  intros Hd H. destruct (Z_lt_ge_dec a (k * d)) as [|Hge]; [assumption | exfalso].
  assert (k <= a / d) by (apply Z.div_le_lower_bound; lia). lia.
Qed.

Lemma round_units_mono (a1 d1 a2 d2 : Z) :
  0 <= a1 -> 0 < d1 -> 0 < d2 -> a1 * d2 <= a2 * d1 ->
  round_units a1 d1 <= round_units a2 d2.
Proof.
  intros Ha H1 H2 Hle.
  pose proof (ulp_shift_mono _ _ _ _ H1 H2 Hle) as Hx.
  unfold round_units.
  set (x1 := ulp_shift a1 d1) in *. set (x2 := ulp_shift a2 d2) in *.
  assert (Hx1 : 0 <= x1) by (unfold x1, ulp_shift; lia).
  assert (Hp1 : 0 < 2 ^ x1) by (apply Z.pow_pos_nonneg; lia).
  assert (Hp2 : 0 < 2 ^ x2) by (apply Z.pow_pos_nonneg; lia).
  destruct (Z.eq_dec x1 x2) as [Heq | Hne].
  - rewrite <- Heq. apply Z.mul_le_mono_nonneg_r; [lia |].
    apply rne_mono; nia.
  - assert (Hlt : x1 < x2) by lia.
    set (e1 := Z.log2 (a1 / d1)). set (e2 := Z.log2 (a2 / d2)).
    assert (He1 : 0 <= e1) by apply Z.log2_nonneg.
    assert (Hx1e : x1 = Z.max 0 (e1 - 52)) by reflexivity.
    assert (Hx2e : x2 = e2 - 52) by (unfold x2, ulp_shift; fold e2; unfold x2, ulp_shift in Hlt; lia).
    (* the larger number is at least 2^e2 *)
    assert (Hq2 : 0 < a2 / d2).
    { destruct (Z_lt_le_dec 0 (a2 / d2)) as [|Hz]; [assumption | exfalso].
      assert (e2 = 0); [| lia].
      unfold e2. destruct (Z.le_gt_cases (a2 / d2) 0) as [Hz'|]; [| lia].
      now apply Z.log2_nonpos. }
    pose proof (Z.log2_spec _ Hq2) as [Hlo2 _]. fold e2 in Hlo2.
    pose proof (Z.mul_div_le a2 d2 H2) as Hm2.
    assert (Hpe2 : 2 ^ e2 = 2 ^ 52 * 2 ^ x2).
    { rewrite <- Z.pow_add_r by lia. f_equal. lia. }
    assert (HN2 : 2 ^ e2 <= rne a2 (d2 * 2 ^ x2) * 2 ^ x2).
    { rewrite Hpe2. apply Z.mul_le_mono_nonneg_r; [lia |].
      apply rne_lower; [nia |]. nia. }
    (* the smaller one is at most 2^(e1+1) *)
    assert (Hup1 : a1 / d1 < 2 ^ (e1 + 1)).
    { destruct (Z_lt_le_dec 0 (a1 / d1)) as [Hpos | Hz].
      - pose proof (Z.log2_spec _ Hpos) as [_ Hhi]. fold e1 in Hhi.
        replace (e1 + 1) with (Z.succ e1) by lia. exact Hhi.
      - assert (0 < 2 ^ (e1 + 1)) by (apply Z.pow_pos_nonneg; lia). lia. }
    apply div_lt_bound in Hup1; [| assumption].
    assert (Hpe1 : 2 ^ (e1 + 1) = 2 ^ (e1 + 1 - x1) * 2 ^ x1).
    { rewrite <- Z.pow_add_r by lia. f_equal. lia. }
    assert (HN1 : rne a1 (d1 * 2 ^ x1) * 2 ^ x1 <= 2 ^ (e1 + 1)).
    { rewrite Hpe1. apply Z.mul_le_mono_nonneg_r; [lia |].
      apply rne_upper; [nia |]. nia. }
    assert (2 ^ (e1 + 1) <= 2 ^ e2) by (apply Z.pow_le_mono_r; lia).
    lia.
Qed.

(** ** The score parser *)

Section ParserProofs.
Local Open Scope string_scope.
Local Open Scope Z_scope.

Lemma clamp_score_range (z : Z) : 1 <= clamp_score z <= 7.
Proof. unfold clamp_score. lia. Qed.

Lemma keyword_fold_range (lower_text : string) (l : list (string * Z)) :
  Forall (fun kv => 1 <= snd kv <= 7) l ->
  forall acc v,
    (forall a, acc = Some a -> 1 <= a <= 7) ->
    fold_left (keyword_step lower_text) l acc = Some v -> 1 <= v <= 7.
Proof.
  induction 1 as [| [k s] l Hks _ IH]; simpl; intros acc v Hacc Hv.
  - now apply Hacc.
  - apply IH in Hv; [assumption |].
    simpl in Hks. intros a.
    destruct (contains k lower_text); [| apply Hacc].
    destruct acc as [f |].
    + destruct (f <? s); intros [= <-]; [assumption | now apply Hacc].
    + intros [= <-]. assumption.
Qed.

Lemma keyword_fallback_range (t : string) : 1 <= keyword_fallback t <= 7.
Proof.
  unfold keyword_fallback, scan_keywords.
  destruct (fold_left _ _ _) as [v |] eqn:E; [| lia].
  eapply keyword_fold_range in E; [exact E | | discriminate].
  unfold score_keywords. repeat constructor; simpl; lia.
Qed.

Section P.
Variable json_loads : string -> result pyval.
Variables provider model : string.

Lemma json_attempt_range t z : json_attempt json_loads t = Ok z -> 1 <= z <= 7.
Proof.
  unfold json_attempt.
  destruct (json_loads t) as [res | e]; simpl.
  - destruct (py_get res "score" (PInt 4)) as [v | e]; simpl.
    + destruct (int_float v) as [score | e]; simpl.
      * destruct (py_get res "explanation" _) as [x | e]; simpl.
        -- intros [= <-]. apply clamp_score_range.
        -- destruct (is_JSONDecodeError e); [| discriminate].
           intros [= <-]. apply keyword_fallback_range.
      * destruct (is_JSONDecodeError e); [| discriminate].
        intros [= <-]. apply keyword_fallback_range.
    + destruct (is_JSONDecodeError e); [| discriminate].
      intros [= <-]. apply keyword_fallback_range.
  - destruct (is_JSONDecodeError e); [| discriminate].
    intros [= <-]. apply keyword_fallback_range.
Qed.

Lemma regex_attempt_range t z : regex_attempt json_loads t = Ok z -> 1 <= z <= 7.
Proof.
  unfold regex_attempt.
  destruct (first_digit_run t) as [number |]; [| apply json_attempt_range].
  destruct (int_float (PStr number)) as [score | e].
  - intros [= <-]. apply clamp_score_range.
  - destruct (is_ValueError e); [apply json_attempt_range | discriminate].
Qed.

Lemma parse_body_range t z :
  parse_body json_loads provider model t = Ok z -> 1 <= z <= 7.
Proof.
  unfold parse_body.
  destruct (_ || _).
  - intros [= <-]. lia.
  - destruct (int_float _) as [score | e].
    + intros [= <-]. apply clamp_score_range.
    + destruct (is_ValueError e); [apply regex_attempt_range | discriminate].
Qed.

End P.

(** C2. For every text, the score parser returns an integer between 1
    and 7 (it is a total function: the outer [except Exception] turns
    every exception into the default), and it returns the default 4 when
    the text is empty or made of white space only. *)
Theorem parse_result_in_range (json_loads : string -> result pyval)
        (provider model text : string) :
  1 <= _parse_result json_loads provider model text <= 7
  /\ (strip text = "" -> _parse_result json_loads provider model text = 4).
Proof.
  split.
  - unfold _parse_result.
    destruct (parse_body json_loads provider model text) as [z | e] eqn:E; [| lia].
    now apply parse_body_range in E.
  - intros Hs. unfold _parse_result, parse_body. rewrite Hs.
    rewrite orb_true_r. reflexivity.
Qed.

Lemma string_forall_app p a b :
  string_forall p (a ++ b) = string_forall p a && string_forall p b.
Proof. induction a as [| c a IH]; simpl; [reflexivity |]. now rewrite IH, andb_assoc. Qed.

Lemma string_forall_impl (p q : ascii -> bool) s :
  (forall c, p c = true -> q c = true) ->
  string_forall p s = true -> string_forall q s = true.
Proof.
  intros Hpq. induction s as [| c s IH]; simpl; [reflexivity |].
  intros [Hc Hs]%andb_prop. now rewrite (Hpq _ Hc), IH.
Qed.

Lemma isdigit_numeral_char c : isdigit c = true -> numeral_char c = true.
Proof. unfold isdigit, numeral_char. lia. Qed.

Lemma numeral_chars neg ip fp :
  string_forall isdigit ip = true -> string_forall isdigit fp = true ->
  string_forall numeral_char (numeral neg ip fp) = true.
Proof.
  intros Hi Hf. unfold numeral. rewrite !string_forall_app.
  apply (string_forall_impl _ _ _ isdigit_numeral_char) in Hi, Hf.
  rewrite Hi. destruct neg, (String.eqb fp ""); simpl; now rewrite ?Hf.
Qed.

Lemma lstrip_by_id p s :
  string_forall (fun c => negb (p c)) s = true -> lstrip_by p s = s.
Proof. destruct s as [| c s]; simpl; [reflexivity |]. now destruct (p c). Qed.

Lemma rstrip_by_id p s :
  string_forall (fun c => negb (p c)) s = true -> rstrip_by p s = s.
Proof.
  induction s as [| c s IH]; simpl; [reflexivity |].
  intros [Hc Hs]%andb_prop. rewrite (IH Hs).
  destruct s; [| reflexivity]. now destruct (p c).
Qed.

Lemma contains_outside (a : ascii) (sub s : string) :
  numeral_char a = false -> string_forall numeral_char s = true ->
  contains (String a sub) s = false.
Proof.
  intros Ha. induction s as [| c s IH]; simpl; [reflexivity |].
  intros [Hc Hs]%andb_prop. rewrite (IH Hs), orb_false_r.
  destruct (ascii_dec a c) as [-> |]; [congruence | reflexivity].
Qed.

Lemma take_skip_digits ip rest :
  string_forall isdigit ip = true ->
  match rest with EmptyString => True | String c _ => isdigit c = false end ->
  take_digits (ip ++ rest) = ip /\ skip_digits (ip ++ rest) = rest.
Proof.
  intros Hi Hr. induction ip as [| c ip IH]; cbn [append take_digits skip_digits string_forall] in *.
  - destruct rest as [| c r]; [split; reflexivity |].
    cbn [take_digits skip_digits]. now rewrite Hr.
  - apply andb_prop in Hi as [Hc Hi]. rewrite Hc.
    destruct (IH Hi) as [-> ->]. split; reflexivity.
Qed.

Lemma strip_underscores_id s :
  string_forall numeral_char s = true ->
  forall prev, (code prev =? 95) = false -> strip_underscores prev s = Some s.
Proof.
  induction s as [| c s IH]; simpl; intros Hs prev Hp.
  - now rewrite Hp.
  - apply andb_prop in Hs as [Hc Hs].
    assert (Hc' : (code c =? 95) = false) by (unfold numeral_char in Hc; lia).
    rewrite Hc', Hp. simpl. now rewrite (IH Hs c Hc').
Qed.

Lemma is_ascii_numeral s : string_forall numeral_char s = true -> is_ascii s = true.
Proof.
  induction s as [| c s IH]; simpl; [reflexivity |].
  intros [Hc Hs]%andb_prop. rewrite (IH Hs), andb_true_r.
  unfold numeral_char in Hc. lia.
Qed.

Lemma digits_value_app acc a b :
  digits_value acc (a ++ b) = digits_value (digits_value acc a) b.
Proof. revert acc. induction a as [| c a IH]; simpl; intros; [reflexivity | apply IH]. Qed.

Lemma digits_value_bound s :
  string_forall isdigit s = true ->
  forall acc, 0 <= acc ->
  acc * 10 ^ Z.of_nat (String.length s) <= digits_value acc s
    < (acc + 1) * 10 ^ Z.of_nat (String.length s).
Proof.
  induction s as [| c s IH]; intros Hs acc Hacc.
  - simpl. lia.
  - cbn [string_forall] in Hs. apply andb_prop in Hs as [Hc Hs].
    cbn [digits_value String.length].
    rewrite Nat2Z.inj_succ, Z.pow_succ_r by lia.
    assert (Hd : 0 <= code c - 48 <= 9) by (unfold isdigit in Hc; lia).
    specialize (IH Hs (10 * acc + (code c - 48)) ltac:(lia)).
    assert (0 < 10 ^ Z.of_nat (String.length s)) by (apply Z.pow_pos_nonneg; lia).
    nia.
Qed.

Lemma string_length_app a b : String.length (a ++ b) = (String.length a + String.length b)%nat.
Proof. induction a; simpl; congruence. Qed.

(** [float] reads a numeral as the number it denotes. *)
Lemma float_of_numeral neg ip fp :
  ip <> "" ->
  string_forall isdigit ip = true -> string_forall isdigit fp = true ->
  float_of_str (numeral neg ip fp)
  = Ok (decimal_to_float neg (digits_value 0 (ip ++ fp)) (- Z.of_nat (String.length fp))).
Proof.
  intros Hne Hi Hf.
  pose proof (numeral_chars neg ip fp Hi Hf) as Hall.
  unfold float_of_str, to_ascii_decimal.
  rewrite (is_ascii_numeral _ Hall).
  rewrite lstrip_by_id, rstrip_by_id;
    try (apply (string_forall_impl numeral_char); [| exact Hall];
         intros c Hc; unfold numeral_char in Hc; unfold c_isspace; lia).
  pose proof (strip_underscores_id _ Hall "000"%char eq_refl) as Hund.
  assert (Hread : read_decimal (numeral neg ip fp)
                  = Some (neg, digits_value 0 (ip ++ fp), - Z.of_nat (String.length fp))).
  { unfold read_decimal.
    assert (Hsign : read_sign (numeral neg ip fp)
                    = (neg, ip ++ (if String.eqb fp "" then "" else "." ++ fp))).
    { unfold numeral. destruct neg; [reflexivity |]. simpl.
      destruct ip as [| c ip]; [congruence |]. simpl in *.
      apply andb_prop in Hi as [Hc _]. unfold isdigit in Hc.
      assert ((code c =? 45) = false) as -> by lia.
      assert ((code c =? 43) = false) as -> by lia. reflexivity. }
    rewrite Hsign.
    destruct (take_skip_digits ip (if String.eqb fp "" then "" else "." ++ fp) Hi) as [-> ->].
    { destruct (String.eqb fp ""); [exact I | reflexivity]. }
    destruct (String.eqb_spec fp "") as [-> | Hfp].
    - simpl. destruct (ip ++ "") eqn:E.
      + destruct ip; [congruence | discriminate].
      + reflexivity.
    - cbn [append]. change (code "." =? 46) with true. cbv iota.
      destruct (take_skip_digits fp "" Hf I) as [E1 E2].
      assert (Hfe : fp ++ "" = fp) by (clear; induction fp; simpl; congruence).
      rewrite Hfe in E1, E2. rewrite E1, E2.
      destruct (ip ++ fp) eqn:E.
      + destruct ip; [congruence | discriminate].
      + simpl. reflexivity. }
  destruct (numeral neg ip fp) eqn:En.
  - unfold numeral in En. destruct neg; [discriminate |]. simpl in En.
    destruct ip; [congruence | discriminate].
  - rewrite Hund, Hread. reflexivity.
Qed.

Lemma digits_value_number s : forall acc,
  digits_value acc s = acc * 10 ^ Z.of_nat (String.length s) + digits_number s.
Proof.
  induction s as [| c s IH]; intros acc.
  - simpl. lia.
  - cbn [digits_value digits_number String.length]. rewrite IH.
    rewrite Nat2Z.inj_succ, Z.pow_succ_r by lia. ring.
Qed.


Lemma round_units_nonneg a d : 0 <= a -> 0 < d -> 0 <= round_units a d.
Proof.
  intros Ha Hd. unfold round_units.
  assert (0 <= ulp_shift a d) by (unfold ulp_shift; lia).
  assert (0 < 2 ^ ulp_shift a d) by (apply Z.pow_pos_nonneg; lia).
  apply Z.mul_nonneg_nonneg; [| lia].
  apply rne_lower; nia.
Qed.

Lemma round_units_int k :
  1 <= k <= 7 -> round_units (k * one_units) 1 = k * one_units.
Proof.
  intros Hk.
  assert (k = 1 \/ k = 2 \/ k = 3 \/ k = 4 \/ k = 5 \/ k = 6 \/ k = 7) as H by lia.
  repeat destruct H as [-> | H]; try subst k; vm_compute; reflexivity.
Qed.

Lemma round_units_below_int k :
  1 <= k <= 7 ->
  round_units (k * one_units - 2 ^ 1024) 1 = k * one_units - 2 ^ 1024.
Proof.
  intros Hk.
  assert (k = 1 \/ k = 2 \/ k = 3 \/ k = 4 \/ k = 5 \/ k = 6 \/ k = 7) as H by lia.
  repeat destruct H as [-> | H]; try subst k; vm_compute; reflexivity.
Qed.

Lemma one_units_pos : 0 < one_units.
Proof. unfold one_units. apply Z.pow_pos_nonneg; lia. Qed.

(** With at most 15 digits after the point, rounding to binary64 does not
    move a number across one of the integers 1..7. *)
Lemma round_units_threshold (D f k : Z) :
  0 <= D -> 0 <= f <= 15 -> 1 <= k <= 7 ->
  (k * one_units <= round_units (D * one_units) (10 ^ f) <-> k * 10 ^ f <= D).
Proof.
  intros HD Hf Hk.
  pose proof one_units_pos as Hone.
  assert (Hp : 0 < 10 ^ f) by (apply Z.pow_pos_nonneg; lia).
  split.
  - intros HN. destruct (Z_le_gt_dec (k * 10 ^ f) D) as [| Hlt]; [assumption | exfalso].
    assert (Hb : round_units (D * one_units) (10 ^ f) <= k * one_units - 2 ^ 1024).
    { rewrite <- (round_units_below_int k Hk).
      apply round_units_mono; [nia | lia | lia |].
      assert (H15 : 10 ^ f <= 10 ^ 15) by (apply Z.pow_le_mono_r; lia).
      assert (H50 : 10 ^ 15 * 2 ^ 1024 <= one_units) by (vm_compute; discriminate).
      assert (0 < 2 ^ 1024) by (apply Z.pow_pos_nonneg; lia).
      nia. }
    assert (0 < 2 ^ 1024) by (apply Z.pow_pos_nonneg; lia). lia.
  - intros HD'. rewrite <- (round_units_int k Hk) at 1.
    apply round_units_mono; nia.
Qed.

Lemma clamp_by_thresholds (x y : Z) :
  (forall k, 1 <= k <= 7 -> (k <= x <-> k <= y)) -> clamp_score x = clamp_score y.
Proof.
  intros H. unfold clamp_score.
  pose proof (H 1 ltac:(lia)). pose proof (H 2 ltac:(lia)). pose proof (H 3 ltac:(lia)).
  pose proof (H 4 ltac:(lia)). pose proof (H 5 ltac:(lia)). pose proof (H 6 ltac:(lia)).
  pose proof (H 7 ltac:(lia)). lia.
Qed.

Lemma le_div_iff (k n d : Z) : 0 < d -> (k <= n / d <-> k * d <= n).
Proof.
  intros Hd. split; intros H.
  - pose proof (Z.mul_div_le n d Hd). nia.
  - apply Z.div_le_lower_bound; lia.
Qed.

Lemma decimal_to_float_fraction neg D f :
  0 <= f -> decimal_to_float neg D (- f) = mk_float neg (D * one_units) (10 ^ f).
Proof.
  intros Hf. unfold decimal_to_float.
  destruct (Z.leb_spec 0 (- f)) as [H | H].
  - assert (f = 0) as -> by lia. simpl (- 0). rewrite Z.pow_0_r, Z.mul_1_r. reflexivity.
  - rewrite Z.opp_involutive. reflexivity.
Qed.

Lemma numeral_text_facts neg ip fp :
  ip <> "" -> string_forall isdigit ip = true -> string_forall isdigit fp = true ->
  let text := numeral neg ip fp in
  String.eqb text "" = false /\ strip text = text
  /\ (forall a sub, numeral_char a = false -> contains (String a sub) text = false).
Proof.
  intros Hne Hi Hf text.
  pose proof (numeral_chars neg ip fp Hi Hf) as Hall. fold text in Hall.
  assert (Hns : string_forall (fun c => negb (isspace c)) text = true).
  { apply (string_forall_impl numeral_char); [| exact Hall].
    intros c Hc. unfold numeral_char in Hc. unfold isspace. lia. }
  repeat split.
  - apply String.eqb_neq. unfold text, numeral.
    destruct neg; [discriminate |]. destruct ip; [congruence | discriminate].
  - unfold strip. now rewrite lstrip_by_id, rstrip_by_id.
  - intros a sub Ha. now apply contains_outside.
Qed.

(** C3. For every text that is a plain decimal numeral (an optional minus
    sign, one to 300 digits and, optionally, a point followed by one to
    15 digits) the score parser returns the number it denotes truncated
    toward zero and clamped to 1..7. *)
Theorem parse_numeral (json_loads : string -> result pyval) (provider model : string)
        (neg : bool) (ip fp : string) :
  ip <> "" ->
  string_forall isdigit ip = true -> string_forall isdigit fp = true ->
  (String.length ip <= 300)%nat -> (String.length fp <= 15)%nat ->
  _parse_result json_loads provider model (numeral neg ip fp)
  = clamp_score (Z.quot (numeral_numerator neg ip fp) (numeral_denominator fp)).
Proof.
  intros Hne Hi Hf Hli Hlf.
  destruct (numeral_text_facts neg ip fp Hne Hi Hf) as (Hnonempty & Hstrip & Hcont).
  pose proof (float_of_numeral neg ip fp Hne Hi Hf) as Hfloat.
  set (text := numeral neg ip fp) in *.
  assert (Hans : answer_part text = text).
  { unfold answer_part. rewrite Hcont; reflexivity. }
  assert (Hgoo : google_final_part provider model text = text).
  { unfold google_final_part. rewrite !Hcont by reflexivity.
    now destruct (_ && _). }
  unfold _parse_result, parse_body.
  rewrite Hnonempty, Hstrip, Hnonempty. cbn [orb].
  rewrite Hans, Hgoo, Hstrip.
  unfold int_float, py_float. rewrite Hfloat. cbn [bind].
  set (f := Z.of_nat (String.length fp)).
  assert (Hf0 : 0 <= f <= 15) by (unfold f; lia).
  rewrite decimal_to_float_fraction by lia.
  rewrite digits_value_number. cbn [Z.mul]. rewrite Z.add_0_l.
  set (D := digits_number (ip ++ fp)).
  assert (HD : 0 <= D < 10 ^ (300 + f)).
  { pose proof (digits_value_bound (ip ++ fp)) as Hb.
    rewrite string_forall_app, Hi, Hf in Hb. specialize (Hb eq_refl 0 ltac:(lia)).
    rewrite digits_value_number in Hb. fold D in Hb.
    rewrite string_length_app, Nat2Z.inj_add in Hb. fold f in Hb.
    assert (10 ^ (Z.of_nat (String.length ip) + f) <= 10 ^ (300 + f))
      by (apply Z.pow_le_mono_r; lia).
    lia. }
  pose proof one_units_pos as Hone.
  assert (Hp : 0 < 10 ^ f) by (apply Z.pow_pos_nonneg; lia).
  set (N := round_units (D * one_units) (10 ^ f)).
  assert (HN0 : 0 <= N) by (apply round_units_nonneg; nia).
  assert (HNfin : (overflow_units <=? N) = false).
  { apply Z.leb_gt.
    assert (HB : N <= round_units (10 ^ 300 * one_units) 1).
    { apply round_units_mono; [nia | lia | lia |].
      rewrite Z.pow_add_r in HD by lia. nia. }
    assert (round_units (10 ^ 300 * one_units) 1 < overflow_units)
      by (vm_compute; reflexivity).
    lia. }
  unfold mk_float. fold N. rewrite HNfin. cbn [int_of_float].
  unfold numeral_numerator, numeral_denominator. fold D f.
  assert (Hthr : forall k, 1 <= k <= 7 -> (k * one_units <= N <-> k * 10 ^ f <= D))
    by (intros k Hk; apply round_units_threshold; lia).
  assert (HD0 : 0 <= D) by lia. clear HD HNfin.
  set (den := 10 ^ f) in *. clearbody N den D.
  destruct neg.
  - rewrite Z.quot_opp_l by lia.
    pose proof (Z.quot_pos D den ltac:(lia) Hp).
    pose proof (Z.div_pos N one_units HN0 Hone).
    unfold clamp_score. lia.
  - rewrite Z.quot_div_nonneg by lia.
    apply clamp_by_thresholds. intros k Hk.
    rewrite !le_div_iff by lia. now apply Hthr.
Qed.

End ParserProofs.

(** ** The progress value *)

Lemma round_units_one : round_units one_units 1 = one_units.
Proof. vm_compute. reflexivity. Qed.

Lemma round_units_hundred :
  round_units (one_units * (100 * one_units)) one_units = 100 * one_units.
Proof. vm_compute. reflexivity. Qed.

Lemma overflow_above_hundred : 100 * one_units < overflow_units.
Proof. vm_compute. reflexivity. Qed.

Lemma quotient_units_le_one (c t : Z) :
  0 <= c <= t -> 0 < t -> 0 <= round_units (c * one_units) t <= one_units.
Proof.
  intros Hc Ht. pose proof one_units_pos.
  split; [apply round_units_nonneg; nia |].
  rewrite <- round_units_one at 2. apply round_units_mono; nia.
Qed.

Lemma progress_units_bounds (c t : Z) :
  0 <= c <= t -> 0 < t -> 0 <= progress_units c t <= 100 * one_units.
Proof.
  intros Hc Ht. pose proof one_units_pos.
  pose proof (quotient_units_le_one c t Hc Ht) as [H0 H1].
  unfold progress_units. split; [apply round_units_nonneg; nia |].
  apply Z.le_trans with (round_units (one_units * (100 * one_units)) one_units);
    [| rewrite round_units_hundred; lia].
  apply round_units_mono; [apply Z.mul_nonneg_nonneg; lia | lia | lia |].
  apply Z.mul_le_mono_nonneg_r; [lia |]. apply Z.mul_le_mono_nonneg_r; lia.
Qed.

Lemma progress_of_bounds (c t : Z) :
  0 <= c <= t -> 0 < t -> 0 <= progress_of c t <= 100.
Proof.
  intros Hc Ht. pose proof one_units_pos.
  pose proof (progress_units_bounds c t Hc Ht) as [H0 H1]. unfold progress_of. split.
  - now apply Z.div_pos.
  - apply Z.div_le_upper_bound; lia.
Qed.

Lemma progress_of_mono (c1 c2 t : Z) :
  0 <= c1 <= c2 -> 0 < t -> progress_of c1 t <= progress_of c2 t.
Proof.
  intros Hc Ht. pose proof one_units_pos.
  unfold progress_of, progress_units. apply Z.div_le_mono; [lia |].
  assert (round_units (c1 * one_units) t <= round_units (c2 * one_units) t).
  { apply round_units_mono; [apply Z.mul_nonneg_nonneg; lia | lia | lia |].
    apply Z.mul_le_mono_nonneg_r; [lia |]. apply Z.mul_le_mono_nonneg_r; lia. }
  assert (0 <= round_units (c1 * one_units) t) by (apply round_units_nonneg; nia).
  apply round_units_mono; [apply Z.mul_nonneg_nonneg; lia | lia | lia |].
  apply Z.mul_le_mono_nonneg_r; [lia |]. apply Z.mul_le_mono_nonneg_r; lia.
Qed.

Lemma progress_of_full (t : Z) : 0 < t -> progress_of t t = 100.
Proof.
  intros Ht. pose proof one_units_pos. unfold progress_of, progress_units.
  assert (round_units (t * one_units) t = one_units) as ->.
  { apply Z.le_antisymm.
    - apply Z.le_trans with (round_units one_units 1);
        [apply round_units_mono; lia | rewrite round_units_one; lia].
    - apply Z.le_trans with (round_units one_units 1);
        [rewrite round_units_one; lia | apply round_units_mono; lia]. }
  rewrite round_units_hundred. apply Z.div_mul. lia.
Qed.

Lemma progress_value_ok (c t : Z) :
  0 <= c <= t -> 0 < t -> progress_value c t = Ok (progress_of c t).
Proof.
  intros Hc Ht. pose proof one_units_pos.
  pose proof (quotient_units_le_one c t Hc Ht) as [H0 H1].
  pose proof (progress_units_bounds c t Hc Ht) as [H2 H3].
  pose proof overflow_above_hundred.
  unfold progress_value, int_truediv.
  assert ((t =? 0) = false) as -> by lia.
  assert ((c <? 0) = false) as -> by lia.
  assert ((t <? 0) = false) as -> by lia.
  rewrite !Z.abs_eq by lia. cbn [xorb]. unfold mk_float at 1.
  assert ((overflow_units <=? round_units (c * one_units) t) = false) as -> by lia.
  cbn [bind].
  assert (float_of_int 100 = Ok (FFin false (100 * one_units))) as ->
    by (vm_compute; reflexivity).
  cbn [bind float_mul xorb]. unfold mk_float. fold (progress_units c t).
  assert ((overflow_units <=? progress_units c t) = false) as -> by lia.
  reflexivity.
Qed.

(** ** A rule for the two loops of the worker *)

Lemma skipn_cons_inv {A : Type} (i : nat) : forall (l : list A) (x : A) (r : list A),
  skipn i l = x :: r -> nth_error l i = Some x /\ skipn (S i) l = r.
Proof.
  induction i as [| i IH]; intros [| y l] x r H; cbn in H; try discriminate.
  - injection H as -> ->. split; reflexivity.
  - apply IH in H as [H1 H2]. split; [exact H1 | exact H2].
Qed.

Section LoopRule.

Variables title_col abstract_col : string.
Variable prompt_template : option string.
Variable provider : string.
Variable threshold : pyfloat.
Variable max_records : Z.
Variable provider_call : bool -> Z -> nat -> result pyval.
Variable cancel_at : option nat.
Variable data : list Row.
Variables total_rows total_tasks : Z.

Local Abbreviation flag st := (fst (read_flag cancel_at st)).
Local Abbreviation body :=
  (loop_body title_col abstract_col prompt_template provider threshold provider_call
             total_rows total_tasks).
Local Abbreviation records :=
  (record_loop title_col abstract_col prompt_template provider threshold max_records
               provider_call cancel_at total_rows total_tasks).
Local Abbreviation iterate :=
  (iteration_loop title_col abstract_col prompt_template provider threshold max_records
                  provider_call cancel_at data total_rows total_tasks).

(** [n]: the number of iterations; [Outer a]: [a] iterations are over;
    [Inner a i]: in iteration [a + 1], the records before [i] are done;
    [Final]: the loops are left; [Fail]: the body raised. *)
Variable n : nat.
Variable Outer : nat -> state -> Prop.
Variable Inner : nat -> nat -> state -> Prop.
Variable Final : state -> Prop.
Variable Fail : state -> Prop.

Hypothesis H_start : forall a st,
  Outer a st -> (a < n)%nat -> flag st = false ->
  Inner a 0 (log (MsgStartingIteration (Z.of_nat (S a))) (count_read st)).
Hypothesis H_stop : forall a st,
  Outer a st -> (a < n)%nat -> flag st = true ->
  Final (log MsgCancelled (count_read st)).
Hypothesis H_end : forall st, Outer n st -> Final st.
Hypothesis H_nil : forall a st,
  Inner a (List.length data) st -> Outer (S a) st.
Hypothesis H_cancel : forall a i st,
  Inner a i st -> (i < List.length data)%nat -> flag st = true ->
  Outer (S a) (log MsgCancelled (count_read st)).
Hypothesis H_max : forall a i st,
  Inner a i st -> (i < List.length data)%nat -> flag st = false ->
  capped max_records i = true ->
  Outer (S a) (log (MsgMaxReached (Z.of_nat (S a))) (count_read st)).
Hypothesis H_body : forall a i row st,
  Inner a i st -> (a < n)%nat -> nth_error data i = Some row -> flag st = false ->
  capped max_records i = false ->
  match body (Z.of_nat (S a)) i row (count_read st) with
  | Done st' => Inner a (S i) st'
  | Failed st' _ => Fail st'
  end.

Lemma record_loop_rule (a : nat) :
  (a < n)%nat ->
  forall rows i st,
    skipn i data = rows -> (i <= List.length data)%nat -> Inner a i st ->
    match records (Z.of_nat (S a)) i rows st with
    | Done st' => Outer (S a) st'
    | Failed st' _ => Fail st'
    end.
Proof.
  intros Ha. induction rows as [| row rest IH]; intros i st Hrows Hi Hinv.
  - cbn [record_loop]. apply H_nil.
    apply (f_equal (@List.length _)) in Hrows.
    rewrite length_skipn in Hrows. cbn [List.length] in Hrows.
    replace (List.length data) with i by lia. assumption.
  - destruct (skipn_cons_inv i data row rest Hrows) as [Hnth Hrest].
    assert (Hlt : (i < List.length data)%nat) by (apply nth_error_Some; congruence).
    cbn [record_loop]. unfold read_flag at 1.
    change (match cancel_at with Some n0 => (n0 <=? flag_reads st)%nat | None => false end)
      with (flag st).
    destruct (flag st) eqn:Hflag.
    + now apply (H_cancel a i).
    + fold (capped max_records i).
      destruct (capped max_records i) eqn:Hcap.
      * now apply (H_max a i).
      * pose proof (H_body a i row st Hinv Ha Hnth Hflag Hcap) as Hb.
        destruct (body (Z.of_nat (S a)) i row (count_read st)) as [st' | st' e];
          cbn [and_then]; [| assumption].
        apply IH; [assumption | lia | assumption].
Qed.

Lemma iteration_loop_rule :
  forall m a st,
    (a + m = n)%nat -> Outer a st ->
    match iterate (map Z.of_nat (seq (S a) m)) st with
    | Done st' => Final st'
    | Failed st' _ => Fail st'
    end.
Proof.
  induction m as [| m IH]; intros a st Ham Hinv.
  - cbn [seq map iteration_loop]. apply H_end. replace n with a by lia. assumption.
  - cbn [seq map iteration_loop]. unfold read_flag at 1.
    change (match cancel_at with Some n0 => (n0 <=? flag_reads st)%nat | None => false end)
      with (flag st).
    destruct (flag st) eqn:Hflag.
    + apply (H_stop a); [assumption | lia | assumption].
    + pose proof (H_start a st Hinv ltac:(lia) Hflag) as Hs.
      pose proof (record_loop_rule a ltac:(lia) data 0%nat _ eq_refl ltac:(lia) Hs) as Hr.
      destruct (records _ _ _ _) as [st' | st' e]; cbn [and_then]; [| assumption].
      apply IH; [lia | assumption].
Qed.

End LoopRule.

(** ** One round of the loop body *)

Section Body.
Variables title_col abstract_col : string.
Variable prompt_template : option string.
Variable provider : string.
Variable threshold : pyfloat.
Variable provider_call : bool -> Z -> nat -> result pyval.
Variables total_rows total_tasks : Z.

Local Abbreviation body :=
  (loop_body title_col abstract_col prompt_template provider threshold provider_call
             total_rows total_tasks).

(** What one round of the loop body does to the state. *)
Lemma loop_body_effect (it : Z) (i : nat) (row : Row) (st : state) :
  let o := body it i row st in
  completed_tasks (final o) = completed_tasks st + 1
  /\ flag_reads (final o) = flag_reads st
  /\ (exists new,
        events (final o) = events st ++ new /\ forallb loop_event new = true
        /\ forallb (request_for i (empty_record title_col abstract_col row)) new = true
        /\ progress_values new
           = match progress_value (completed_tasks st + 1) total_tasks with
             | Ok p => [p]
             | Raise _ => []
             end)
  /\ match o with
     | Done st' =>
         processed_data st'
         = processed_data st
             ++ row_result title_col abstract_col prompt_template provider threshold
                           provider_call it i row
     | Failed st' _ => processed_data st' = processed_data st
     end.
Proof.
  cbv zeta. unfold loop_body. cbn [completed_tasks count_task].
  destruct (progress_value _ _) as [p | e]; cbn [final].
  - unfold row_result, empty_record.
    destruct (_ && _).
    + cbn [final]. split; [| split; [| split]].
      * destruct (it =? 1); cbn; rewrite ?app_nil_r; reflexivity.
      * destruct (it =? 1); cbn; rewrite ?app_nil_r; reflexivity.
      * exists [progress_percentage p; progress_update (MsgMissing i it)].
        split; [| repeat split].
        destruct (it =? 1); cbn; rewrite <- app_assoc; reflexivity.
      * destruct (it =? 1); cbn; rewrite ?app_nil_r; reflexivity.
    + unfold score_record, scored, log_if.
      set (score := get_relevance_score _ _).
      destruct (score_ge score threshold) as [b | e]; cbn [final];
        destruct (first_two i it), (has_prompt prompt_template); try destruct b;
        (split; [| split; [| split]]); try reflexivity;
        cbn; rewrite <- ?app_assoc; cbn; eexists;
        (split; [reflexivity | cbn; rewrite ?Nat.eqb_refl; repeat split]).
  - split; [| split; [| split]]; try reflexivity.
    exists []. rewrite app_nil_r. repeat split.
Qed.
End Body.

Lemma loop_event_quiet e : loop_event e = true -> quiet e = true.
Proof. unfold loop_event. now intros [? _]%andb_prop. Qed.

Lemma loop_event_not_cancel e : loop_event e = true -> is_cancel e = false.
Proof. unfold loop_event. intros [_ H]%andb_prop. now destruct (is_cancel e). Qed.

Lemma forallb_impl {A} (p q : A -> bool) l :
  (forall x, p x = true -> q x = true) -> forallb p l = true -> forallb q l = true.
Proof.
  intros H. rewrite !forallb_forall. auto.
Qed.

Lemma existsb_loop_events new :
  forallb loop_event new = true -> existsb is_cancel new = false.
Proof.
  induction new as [| e new IH]; cbn; [reflexivity |].
  intros [He Hn]%andb_prop. now rewrite (loop_event_not_cancel e He), IH.
Qed.

Section Exp.
Variables title_col abstract_col : string.
Variable prompt_template : option string.
Variable provider : string.
Variable threshold : pyfloat.
Variable max_records : Z.
Variable provider_call : bool -> Z -> nat -> result pyval.

Local Abbreviation rresult :=
  (records_result title_col abstract_col prompt_template provider threshold provider_call).
Local Abbreviation expected :=
  (expected_rows title_col abstract_col prompt_template provider threshold max_records
                 provider_call).
Local Abbreviation iresult :=
  (iteration_result title_col abstract_col prompt_template provider threshold max_records
                    provider_call).

Lemma records_result_app it l1 : forall i l2,
  rresult it i (l1 ++ l2) = rresult it i l1 ++ rresult it (i + List.length l1) l2.
Proof.
  induction l1 as [| r l1 IH]; intros i l2; cbn [records_result app List.length].
  - now rewrite Nat.add_0_r.
  - rewrite IH, <- app_assoc. do 3 f_equal. lia.
Qed.

Lemma row_result_length it i row :
  (List.length (row_result title_col abstract_col prompt_template provider threshold
                           provider_call it i row) <= 1)%nat.
Proof.
  unfold row_result. destruct (empty_record _ _ _); [destruct (it =? 1) |]; cbn; lia.
Qed.

Lemma expected_rows_succ data a :
  expected data (S a) = expected data a ++ iresult data (Z.of_nat (S a)).
Proof.
  unfold expected_rows. rewrite seq_S, flat_map_app. cbn [flat_map Nat.add].
  now rewrite app_nil_r.
Qed.

Lemma firstn_succ_nth {A} (l : list A) : forall i x,
  nth_error l i = Some x -> firstn (S i) l = firstn i l ++ [x].
Proof.
  induction l as [| y l IH]; intros [| i] x H; cbn in *; try discriminate.
  - now injection H as ->.
  - f_equal. now apply IH.
Qed.
End Exp.

(** ** The trace of a run *)

Section Trace.
Variables title_col abstract_col : string.
Variable prompt_template : option string.
Variable provider : string.
Variable threshold : pyfloat.
Variable max_records : Z.
Variable provider_call : bool -> Z -> nat -> result pyval.
Variable cancel_at : option nat.
Variable data : list Row.
Variables total_rows total_tasks : Z.
Variable n : nat.

Local Abbreviation flag st := (fst (read_flag cancel_at st)).
Local Abbreviation rresult :=
  (records_result title_col abstract_col prompt_template provider threshold provider_call).
Local Abbreviation expected :=
  (Spec.expected title_col abstract_col prompt_template provider threshold max_records
                 provider_call data).
Local Abbreviation cancelled := (Spec.cancelled cancel_at).
Local Abbreviation trace_outer :=
  (Spec.trace_outer title_col abstract_col prompt_template provider threshold max_records
                    provider_call cancel_at data).
Local Abbreviation trace_inner :=
  (Spec.trace_inner title_col abstract_col prompt_template provider threshold max_records
                    provider_call data).
Local Abbreviation trace_final :=
  (Spec.trace_final title_col abstract_col prompt_template provider threshold max_records
                    provider_call cancel_at data n).

Lemma flag_count_read st : flag st = true -> flag (count_read st) = true.
Proof.
  unfold read_flag. cbn. destruct cancel_at as [c |]; [| discriminate].
  intros H%Nat.leb_le. apply Nat.leb_le. lia.
Qed.

Lemma flag_log m st : flag (log m st) = flag st.
Proof. reflexivity. Qed.

Lemma base_log m st : base st -> base (log m (count_read st)).
Proof.
  intros [Hq Hb]. split; [| exact Hb].
  cbn. rewrite forallb_app, Hq. reflexivity.
Qed.

Lemma running_log m st :
  is_cancel (progress_update m) = false -> running st -> running (log m (count_read st)).
Proof.
  intros Hm Hr. unfold running in *. cbn [log emit events count_read].
  rewrite existsb_app, Hr. cbn [existsb]. now rewrite Hm.
Qed.

Lemma running_not_cancelled k st : running st -> cancelled (S k) st -> False.
Proof.
  intros Hr (_ & pre & He & _). unfold running in Hr. rewrite He in Hr.
  rewrite existsb_app in Hr. cbn in Hr. rewrite orb_true_r in Hr. discriminate.
Qed.

Lemma handled_count_le : (handled_count max_records data <= List.length data)%nat.
Proof. unfold handled_count. destruct (0 <? max_records); lia. Qed.


Lemma trace_loops (st : state) :
  trace_outer 0 st ->
  match iteration_loop title_col abstract_col prompt_template provider threshold
                       max_records provider_call cancel_at data total_rows total_tasks
                       (map Z.of_nat (seq 1 n)) st with
  | Done st' => trace_final st'
  | Failed st' _ => trace_fail st'
  end.
Proof.
  intros H0.
  apply (iteration_loop_rule title_col abstract_col prompt_template provider threshold
           max_records provider_call cancel_at data total_rows total_tasks n
           trace_outer trace_inner trace_final trace_fail) with (a := 0%nat);
    [ | | | | | | | lia | exact H0 ].
  - (* start of an iteration *)
    intros a s [Hb [Hc | [Hr He]]] Ha Hf.
    + destruct Hc as [Hc _]. congruence.
    + split; [now apply base_log | split; [now apply running_log | split; [lia |]]].
      cbn. now rewrite app_nil_r.
  - (* cancelled at the top of an iteration *)
    intros a s [Hb [Hc | [Hr He]]] Ha Hf.
    + split; [now apply base_log | right; left].
      destruct Hc as (_ & pre & Hev & Hpre).
      split; [now apply flag_count_read |].
      exists pre. split; [| exact Hpre].
      cbn [log emit events count_read]. rewrite Hev. cbn. now rewrite <- app_assoc.
    + split; [now apply base_log | left].
      split; [now apply flag_count_read |].
      exists (events s). split; [reflexivity | exact Hr].
  - (* all iterations done *)
    intros s [Hb [Hc | Hr]]; (split; [exact Hb |]); [left | right; right]; assumption.
  - (* the records are exhausted *)
    intros a s (Hb & Hr & Hi & He).
    split; [exact Hb | right; split; [exact Hr |]].
    rewrite expected_rows_succ. rewrite He. f_equal. unfold iteration_result.
    pose proof handled_count_le. do 2 f_equal. lia.
  - (* cancelled at the top of the record loop *)
    intros a i s (Hb & Hr & Hi & He) Hlt Hf.
    split; [now apply base_log | left].
    split; [now apply flag_count_read |].
    exists (events s). split; [reflexivity | exact Hr].
  - (* the record cap *)
    intros a i s (Hb & Hr & Hi & He) Hlt Hf Hcap.
    split; [now apply base_log | right; split; [now apply running_log |]].
    cbn [log emit processed_data count_read].
    rewrite expected_rows_succ, He. f_equal. unfold iteration_result. do 2 f_equal.
    unfold capped in Hcap. unfold handled_count in *.
    destruct (0 <? max_records); [| discriminate]. cbn in Hcap. lia.
  - (* the body *)
    intros a i row s (Hb & Hr & Hi & He) Ha Hnth Hf Hcap.
    pose proof (loop_body_effect title_col abstract_col prompt_template provider threshold
                  provider_call total_rows total_tasks (Z.of_nat (S a)) i row
                  (count_read s)) as Heff.
    cbv zeta in Heff. destruct Heff as (Hct & _ & (new & Hev & Hnew & _ & _) & Hpd).
    destruct Hb as [Hq Hlen].
    assert (Hlt : (i < List.length data)%nat) by (apply nth_error_Some; congruence).
    destruct (loop_body _ _ _ _ _ _ _ _ _ _ _ _) as [s' | s' e]; cbn [final] in *.
    + split; [split | split; [| split]].
      * rewrite Hev, forallb_app. cbn [events count_read]. rewrite Hq.
        apply (forallb_impl _ _ _ loop_event_quiet Hnew).
      * rewrite Hpd, Hct, length_app. cbn [processed_data count_read completed_tasks].
        pose proof (row_result_length title_col abstract_col prompt_template provider
                      threshold provider_call (Z.of_nat (S a)) i row). lia.
      * unfold running in *. rewrite Hev, existsb_app. cbn [events count_read].
        now rewrite Hr, (existsb_loop_events _ Hnew).
      * unfold capped in Hcap. unfold handled_count in *.
        destruct (0 <? max_records); cbn in Hcap; lia.
      * rewrite Hpd. cbn [processed_data count_read]. rewrite He, <- app_assoc. f_equal.
        rewrite (firstn_succ_nth _ _ _ Hnth), records_result_app.
        cbn [records_result]. rewrite app_nil_r. do 2 f_equal.
        rewrite length_firstn. lia.
    + split; [split |].
      * rewrite Hev, forallb_app. cbn [events count_read]. rewrite Hq.
        apply (forallb_impl _ _ _ loop_event_quiet Hnew).
      * rewrite Hpd, Hct. cbn [processed_data count_read completed_tasks]. lia.
      * unfold running in *. rewrite Hev, existsb_app. cbn [events count_read].
        now rewrite Hr, (existsb_loop_events _ Hnew).
Qed.
End Trace.

Section RunShape.
Variables title_col abstract_col : string.
Variable prompt_template : option string.
Variable provider : string.
Variable threshold : pyfloat.
Variable max_records : Z.
Variable iterations : Z.
Variable provider_call : bool -> Z -> nat -> result pyval.
Variable cancel_at : option nat.
Variable data : list Row.

Local Abbreviation the_run :=
  (run title_col abstract_col prompt_template provider threshold max_records iterations
       provider_call cancel_at (Ok data)).
Local Abbreviation run_end :=
  (Spec.run_end title_col abstract_col prompt_template provider threshold max_records
                iterations provider_call cancel_at data).
Local Abbreviation flag st := (fst (read_flag cancel_at st)).

Lemma run_ends : run_end the_run.
Proof.
  unfold run, run_body.
  destruct (Z.eqb_spec (Z.of_nat (List.length data)) 0) as [Hz | Hnz].
  - apply end_no_data.
    + destruct data; [reflexivity | discriminate].
    + reflexivity.
    + reflexivity.
  - set (st1 := log_if _ _ _).
    assert (H1 : Spec.trace_outer title_col abstract_col prompt_template provider threshold
                   max_records provider_call cancel_at data 0 st1).
    { unfold st1, log_if. split; [split |]; [| | right; split];
        destruct (_ && _); reflexivity. }
    pose proof (trace_loops title_col abstract_col prompt_template provider threshold
                  max_records provider_call cancel_at data (Z.of_nat (List.length data))
                  (effective_total max_records (Z.of_nat (List.length data)) * iterations)
                  (Z.to_nat iterations) st1 H1) as Hloops.
    unfold range_from_1.
    destruct (iteration_loop _ _ _ _ _ _ _ _ _ _ _ _ _) as [s | s e]; cbn [and_then].
    + destruct Hloops as [Hb Hphase].
      unfold finish. unfold read_flag at 1.
      change (match cancel_at with Some n0 => (n0 <=? flag_reads s)%nat | None => false end)
        with (flag s).
      destruct (flag s) eqn:Hflag.
      * destruct Hphase as [Hc | [Hc | [Hr He]]].
        -- destruct Hc as (_ & pre & Hev & Hpre).
           apply end_cancelled with (k := 1%nat) (pre := pre); auto.
        -- destruct Hc as (_ & pre & Hev & Hpre).
           apply end_cancelled with (k := 2%nat) (pre := pre); auto.
        -- apply end_late with (s := s); auto.
      * destruct Hphase as [Hc | [Hc | [Hr He]]];
          [destruct Hc as [Hc _]; congruence | destruct Hc as [Hc _]; congruence |].
        destruct (Z.eqb_spec iterations 0) as [Hi | Hi].
        -- apply end_zero_iterations with (s := s); auto.
           cbn. rewrite <- !app_assoc. reflexivity.
        -- apply end_complete with (s := s); auto.
           cbn. rewrite <- !app_assoc. reflexivity.
    + destruct Hloops as [Hb Hr]. apply end_failed with (s := s) (e := e); auto.
Qed.
End RunShape.

(** ** The progress values of a run *)

Lemma progress_values_app l1 l2 :
  progress_values (l1 ++ l2) = progress_values l1 ++ progress_values l2.
Proof.
  induction l1 as [| e l1 IH]; [reflexivity |].
  destruct e; cbn; rewrite ?IH; reflexivity.
Qed.

Lemma task_progress_succ t k :
  task_progress t (S k) = task_progress t k ++ [progress_of (Z.of_nat (S k)) t].
Proof. unfold task_progress. now rewrite seq_S, map_app. Qed.

Section Progress.
Variables title_col abstract_col : string.
Variable prompt_template : option string.
Variable provider : string.
Variable threshold : pyfloat.
Variable max_records : Z.
Variable provider_call : bool -> Z -> nat -> result pyval.
Variable cancel_at : option nat.
Variable data : list Row.
Variable n : nat.

Local Abbreviation total_rows := (Z.of_nat (List.length data)).
Local Abbreviation eff := (effective_total max_records (Z.of_nat (List.length data))).
Local Abbreviation total_tasks :=
  (effective_total max_records (Z.of_nat (List.length data)) * Z.of_nat n).
Local Abbreviation progress_so_far := (Spec.progress_so_far total_tasks).
Local Abbreviation prog_outer := (Spec.prog_outer eff total_tasks).
Local Abbreviation prog_inner := (Spec.prog_inner eff total_tasks).
Local Abbreviation prog_final := (Spec.prog_final total_tasks).

Lemma eff_nonneg : 0 <= eff.
Proof.
  unfold effective_total.
  destruct (Z.ltb_spec 0 max_records), (Z.ltb_spec max_records (Z.of_nat (List.length data)));
    cbn; lia.
Qed.

Lemma uncapped_below_eff i :
  (i < List.length data)%nat -> capped max_records i = false -> Z.of_nat i < eff.
Proof.
  unfold capped, effective_total. intros Hi Hc.
  destruct (Z.ltb_spec 0 max_records), (Z.ltb_spec max_records (Z.of_nat (List.length data)));
    cbn in *; lia.
Qed.

Lemma progress_so_far_log m st :
  progress_so_far st -> progress_so_far (log m (count_read st)).
Proof.
  intros [H0 H]. split; [exact H0 |].
  cbn [log emit events count_read completed_tasks].
  rewrite progress_values_app, H. cbn. now rewrite app_nil_r.
Qed.

Lemma prog_loops (st : state) :
  prog_outer 0 st ->
  prog_final
    (final (iteration_loop title_col abstract_col prompt_template provider threshold
              max_records provider_call cancel_at data total_rows total_tasks
              (map Z.of_nat (seq 1 n)) st)).
Proof.
  intros H0. pose proof eff_nonneg as Heff.
  pose proof (iteration_loop_rule title_col abstract_col prompt_template provider threshold
           max_records provider_call cancel_at data total_rows total_tasks n
           prog_outer prog_inner prog_final prog_final) as Hrule.
  assert (Hgoal : forall o, match o with Done s => prog_final s | Failed s _ => prog_final s end
                       -> prog_final (final o)) by (now intros [s | s e]).
  apply Hgoal. apply Hrule with (a := 0%nat); clear Hrule Hgoal; [ | | | | | | | lia | exact H0 ].
  - intros a s [Hp Hc] Ha Hf.
    split; [now apply progress_so_far_log | cbn [completed_tasks log emit count_read]; lia].
  - intros a s [Hp Hc] Ha Hf.
    split; [now apply progress_so_far_log |]. cbn [completed_tasks log emit count_read].
    assert (Z.of_nat a * eff <= Z.of_nat n * eff) by (apply Z.mul_le_mono_nonneg_r; lia).
    lia.
  - intros s [Hp Hc]. split; [exact Hp |]. lia.
  - intros a s (Hp & Hc & Hi). split; [exact Hp |]. lia.
  - intros a i s (Hp & Hc & Hi) Hlt Hf.
    split; [now apply progress_so_far_log |]. cbn [completed_tasks log emit count_read]. lia.
  - intros a i s (Hp & Hc & Hi) Hlt Hf Hcap.
    split; [now apply progress_so_far_log |]. cbn [completed_tasks log emit count_read]. lia.
  - intros a i row s (Hp & Hc & Hi) Ha Hnth Hf Hcap.
    assert (Hlt : (i < List.length data)%nat) by (apply nth_error_Some; congruence).
    pose proof (uncapped_below_eff i Hlt Hcap) as Hie.
    pose proof (loop_body_effect title_col abstract_col prompt_template provider threshold
                  provider_call total_rows total_tasks (Z.of_nat (S a)) i row
                  (count_read s)) as Heffect.
    cbv zeta in Heffect.
    destruct Heffect as (Hct & _ & (new & Hev & _ & _ & Hnew) & _).
    cbn [completed_tasks count_read events] in *.
    destruct Hp as [Hc0 Hpv].
    assert (Hbound : completed_tasks s + 1 <= total_tasks).
    { assert ((Z.of_nat a + 1) * eff <= Z.of_nat n * eff)
        by (apply Z.mul_le_mono_nonneg_r; lia).
      lia. }
    assert (H1 : 0 <= completed_tasks s + 1 <= total_tasks) by lia.
    assert (H2 : 0 < total_tasks) by lia.
    rewrite (progress_value_ok _ _ H1 H2) in Hnew.
    assert (Hps : progress_so_far
                    (final (loop_body title_col abstract_col prompt_template provider
                              threshold provider_call total_rows total_tasks
                              (Z.of_nat (S a)) i row (count_read s)))).
    { split; [lia |]. rewrite Hev, progress_values_app, Hpv, Hnew, Hct.
      replace (Z.to_nat (completed_tasks s + 1)) with (S (Z.to_nat (completed_tasks s)))
        by lia.
      rewrite task_progress_succ.
      replace (Z.of_nat (S (Z.to_nat (completed_tasks s)))) with (completed_tasks s + 1)
        by lia.
      reflexivity. }
    destruct (loop_body _ _ _ _ _ _ _ _ _ _ _ _) as [s' | s' e]; cbn [final] in *.
    + split; [exact Hps | lia].
    + split; [exact Hps | lia].
Qed.
End Progress.

(** ** Records without title and abstract *)

Section Skipped.
Variables title_col abstract_col : string.
Variable prompt_template : option string.
Variable provider : string.
Variable threshold : pyfloat.
Variable max_records : Z.
Variable provider_call : bool -> Z -> nat -> result pyval.
Variable cancel_at : option nat.
Variable data : list Row.
Variables total_rows total_tasks : Z.
Variable n : nat.

(** The record [j] of the sheet has neither title nor abstract. *)
Variable j : nat.
Variable row_j : Row.
Hypothesis H_row : nth_error data j = Some row_j.
Hypothesis H_empty : empty_record title_col abstract_col row_j = true.

Local Abbreviation never_requested := (Spec.never_requested j row_j).

Lemma never_requested_log m st :
  never_requested st -> never_requested (log m (count_read st)).
Proof.
  intros [Hreq Hrows]. split; [| exact Hrows].
  intros b it. cbn [log emit events count_read]. rewrite in_app_iff.
  intros [H | [H | []]]; [now apply (Hreq b it) | discriminate].
Qed.

Lemma row_result_index it i row r :
  In r (row_result title_col abstract_col prompt_template provider threshold
                   provider_call it i row) ->
  row_index r = i
  /\ (empty_record title_col abstract_col row = true -> r = zero_row i row 1).
Proof.
  unfold row_result. destruct (empty_record title_col abstract_col row).
  - destruct (Z.eqb_spec it 1) as [-> | _]; cbn [In]; [| intros []].
    intros [<- | []]. split; [reflexivity | reflexivity].
  - cbn [In]. intros [<- | []]. split; [reflexivity | discriminate].
Qed.

Lemma skipped_loops (st : state) :
  never_requested st ->
  never_requested
    (final (iteration_loop title_col abstract_col prompt_template provider threshold
              max_records provider_call cancel_at data total_rows total_tasks
              (map Z.of_nat (seq 1 n)) st)).
Proof.
  intros H0.
  pose proof (iteration_loop_rule title_col abstract_col prompt_template provider threshold
           max_records provider_call cancel_at data total_rows total_tasks n
           (fun _ => never_requested) (fun _ _ => never_requested)
           never_requested never_requested) as Hrule.
  assert (Hgoal : forall o,
             match o with Done s => never_requested s | Failed s _ => never_requested s end
             -> never_requested (final o)) by (now intros [s | s e]).
  apply Hgoal. apply Hrule with (a := 0%nat); clear Hrule Hgoal;
    try (intros; now apply never_requested_log); try (intros; assumption); [| lia].
  intros a i row s [Hreq Hrows] Ha Hnth Hf Hcap.
  pose proof (loop_body_effect title_col abstract_col prompt_template provider threshold
                provider_call total_rows total_tasks (Z.of_nat (S a)) i row
                (count_read s)) as Heffect.
  cbv zeta in Heffect.
  destruct Heffect as (_ & _ & (new & Hev & _ & Hnew & _) & Hpd).
  cbn [events processed_data count_read] in *.
  assert (Hinv : never_requested
                   (final (loop_body title_col abstract_col prompt_template provider
                             threshold provider_call total_rows total_tasks
                             (Z.of_nat (S a)) i row (count_read s)))).
  { split.
    - intros b it. rewrite Hev, in_app_iff. intros [H | H]; [now apply (Hreq b it) |].
      rewrite forallb_forall in Hnew. specialize (Hnew _ H). cbn in Hnew.
      apply andb_prop in Hnew as [Hji Hne]. apply Nat.eqb_eq in Hji. subst i.
      rewrite H_row in Hnth. injection Hnth as <-. rewrite H_empty in Hne. discriminate.
    - intros r Hin Hidx.
      destruct (loop_body _ _ _ _ _ _ _ _ _ _ _ _) as [s' | s' e]; cbn [final] in *.
      + rewrite Hpd, in_app_iff in Hin. destruct Hin as [Hin | Hin]; [now apply Hrows |].
        apply row_result_index in Hin as [Hi Hz]. rewrite Hidx in Hi. subst i.
        rewrite H_row in Hnth. injection Hnth as <-. now apply Hz.
      + rewrite Hpd in Hin. now apply Hrows. }
  destruct (loop_body _ _ _ _ _ _ _ _ _ _ _ _) as [s' | s' e]; exact Hinv.
Qed.
End Skipped.

Section Counting.
Variables title_col abstract_col : string.
Variable prompt_template : option string.
Variable provider : string.
Variable threshold : pyfloat.
Variable max_records : Z.
Variable provider_call : bool -> Z -> nat -> result pyval.

Local Abbreviation rowres :=
  (row_result title_col abstract_col prompt_template provider threshold provider_call).
Local Abbreviation rresult :=
  (records_result title_col abstract_col prompt_template provider threshold provider_call).
Local Abbreviation expected :=
  (expected_rows title_col abstract_col prompt_template provider threshold max_records
                 provider_call).
Local Abbreviation iresult :=
  (iteration_result title_col abstract_col prompt_template provider threshold max_records
                    provider_call).
Local Abbreviation is_empty := (empty_record title_col abstract_col).

Lemma rows_of_app j l1 l2 : rows_of j (l1 ++ l2) = rows_of j l1 ++ rows_of j l2.
Proof. apply filter_app. Qed.

Lemma rows_of_row_result j it i row :
  rows_of j (rowres it i row) = if (i =? j)%nat then rowres it i row else [].
Proof.
  unfold row_result.
  destruct (is_empty row); [destruct (it =? 1) |]; cbn;
    destruct (i =? j)%nat; reflexivity.
Qed.

Lemma rows_of_records_after j it rows : forall i,
  (j < i)%nat -> rows_of j (rresult it i rows) = [].
Proof.
  induction rows as [| row rest IH]; intros i Hi; cbn [records_result]; [reflexivity |].
  rewrite rows_of_app, rows_of_row_result, IH by lia.
  now destruct (Nat.eqb_spec i j); [lia |].
Qed.

Lemma rows_of_records j it row rows : forall i,
  (i <= j)%nat -> nth_error rows (j - i) = Some row ->
  rows_of j (rresult it i rows) = rowres it j row.
Proof.
  induction rows as [| r rest IH]; intros i Hi Hnth.
  - destruct (j - i)%nat; discriminate.
  - cbn [records_result]. rewrite rows_of_app, rows_of_row_result.
    destruct (Nat.eqb_spec i j) as [-> | Hne].
    + rewrite Nat.sub_diag in Hnth. injection Hnth as ->.
      rewrite rows_of_records_after by lia. apply app_nil_r.
    + cbn [app]. apply IH; [lia |].
      replace (j - i)%nat with (S (j - S i)) in Hnth by lia. exact Hnth.
Qed.

Lemma rows_of_iteration data j row it :
  nth_error data j = Some row ->
  (j < handled_count max_records data)%nat ->
  rows_of j (iresult data it) = rowres it j row.
Proof.
  intros Hnth Hj. unfold iteration_result.
  apply rows_of_records; [lia |].
  rewrite Nat.sub_0_r, nth_error_firstn.
  now destruct (Nat.ltb_spec j (handled_count max_records data)); [| lia].
Qed.

(** In a run that goes through all its iterations, a record without
    title and abstract gives one row, in the first iteration. *)
Lemma rows_of_expected data j row n :
  nth_error data j = Some row -> is_empty row = true ->
  (j < handled_count max_records data)%nat -> (1 <= n)%nat ->
  rows_of j (expected data n) = [zero_row j row 1].
Proof.
  intros Hnth Hempty Hj Hn.
  induction n as [| n IH]; [lia |].
  rewrite expected_rows_succ, rows_of_app, (rows_of_iteration data j row) by assumption.
  unfold row_result. rewrite Hempty.
  destruct n as [| n].
  - reflexivity.
  - rewrite IH by lia.
    destruct (Z.eqb_spec (Z.of_nat (S (S n))) 1); [lia | reflexivity].
Qed.

Lemma records_result_length_le it rows : forall i,
  (List.length (rresult it i rows) <= List.length rows)%nat.
Proof.
  induction rows as [| row rest IH]; intros i; cbn [records_result List.length]; [lia |].
  rewrite length_app. specialize (IH (S i)).
  pose proof (row_result_length title_col abstract_col prompt_template provider threshold
                provider_call it i row). lia.
Qed.

Lemma records_result_length_full it rows : forall i,
  (forall row, In row rows -> is_empty row = false) ->
  List.length (rresult it i rows) = List.length rows.
Proof.
  induction rows as [| row rest IH]; intros i Hall; cbn [records_result List.length];
    [reflexivity |].
  rewrite length_app, IH by (intros; apply Hall; now right).
  unfold row_result. now rewrite (Hall row (or_introl eq_refl)).
Qed.

Lemma records_result_length_lt it rows : forall i,
  it <> 1 -> (exists row, In row rows /\ is_empty row = true) ->
  (List.length (rresult it i rows) < List.length rows)%nat.
Proof.
  induction rows as [| row rest IH]; intros i Hit [r [Hin Hr]]; [destruct Hin |].
  cbn [records_result List.length]. rewrite length_app.
  pose proof (records_result_length_le it rest (S i)).
  destruct Hin as [-> | Hin].
  - unfold row_result. rewrite Hr.
    destruct (Z.eqb_spec it 1); [contradiction |]. cbn. lia.
  - pose proof (row_result_length title_col abstract_col prompt_template provider threshold
                  provider_call it i row).
    specialize (IH (S i) Hit (ex_intro _ r (conj Hin Hr))). lia.
Qed.

Lemma expected_length_le data n :
  (List.length (expected data n) <= n * List.length data)%nat.
Proof.
  induction n as [| n IH]; [cbn; lia |].
  rewrite expected_rows_succ, length_app. unfold iteration_result.
  pose proof (records_result_length_le (Z.of_nat (S n))
                (firstn (handled_count max_records data) data) 0).
  rewrite length_firstn in H. lia.
Qed.

Lemma expected_length_full data n :
  max_records = 0 ->
  (forall row, In row data -> is_empty row = false) ->
  List.length (expected data n) = (n * List.length data)%nat.
Proof.
  intros Hmax Hall. induction n as [| n IH]; [reflexivity |].
  rewrite expected_rows_succ, length_app, IH. unfold iteration_result, handled_count.
  rewrite Hmax. cbn [Z.ltb Z.compare]. rewrite firstn_all.
  rewrite records_result_length_full by assumption. lia.
Qed.

Lemma expected_length_lt data n :
  max_records = 0 ->
  (exists row, In row data /\ is_empty row = true) ->
  (2 <= n)%nat ->
  (List.length (expected data n) < n * List.length data)%nat.
Proof.
  intros Hmax Hex Hn.
  destruct n as [| [| n]]; [lia | lia |].
  rewrite expected_rows_succ, length_app.
  pose proof (expected_length_le data (S n)).
  unfold iteration_result, handled_count. rewrite Hmax in H |- *. cbn [Z.ltb Z.compare].
  rewrite firstn_all.
  pose proof (records_result_length_lt (Z.of_nat (S (S n))) data 0 ltac:(lia) Hex).
  lia.
Qed.
End Counting.

(** ** How a run ends *)


Lemma quiet_events l e :
  forallb quiet l = true -> In e l ->
  is_save e = false /\ is_complete e = false /\ (forall t, e <> error_occurred t).
Proof.
  rewrite forallb_forall. intros H Hin. specialize (H e Hin).
  destruct e; cbn in *; try discriminate; repeat split; discriminate.
Qed.

Lemma not_cancel_event l :
  existsb is_cancel l = false -> ~ In cancel_event l.
Proof.
  intros H Hin. assert (existsb is_cancel l = true); [| congruence].
  apply existsb_exists. exists cancel_event. split; [assumption | reflexivity].
Qed.

Lemma base_no_complete st p r : base st -> ~ In (processing_complete p r) (events st).
Proof.
  intros [Hq _] Hin. now destruct (quiet_events _ _ Hq Hin) as (_ & H & _).
Qed.

Section RunTheorems.
Variables title_col abstract_col : string.
Variable prompt_template : option string.
Variable provider : string.
Variable threshold : pyfloat.
Variable max_records : Z.
Variable iterations : Z.
Variable provider_call : bool -> Z -> nat -> result pyval.
Variable cancel_at : option nat.
Variable data : list Row.

Local Abbreviation the_run :=
  (run title_col abstract_col prompt_template provider threshold max_records iterations
       provider_call cancel_at (Ok data)).

Lemma cancelled_run_end :
  In cancel_event (events the_run) ->
  base the_run
  /\ exists pre k,
      (k = 1 \/ k = 2)%nat /\ events the_run = pre ++ repeat cancel_event k
      /\ ~ In cancel_event pre.
Proof.
  intros Hin.
  destruct (run_ends title_col abstract_col prompt_template provider threshold max_records
              iterations provider_call cancel_at data)
    as [_ Hc _ | s e Hb Hr Hev | k pre Hk Hb Hev Hpre | s Hb Hr _ _
        | s _ Hb Hr _ _ Hev | s _ Hb Hr Hev].
  - now apply not_cancel_event in Hc.
  - exfalso. rewrite Hev, in_app_iff in Hin. destruct Hin as [Hin | [Hin | []]];
      [now apply not_cancel_event in Hr | discriminate].
  - split; [exact Hb |]. exists pre, k. repeat split; try assumption.
    now apply not_cancel_event.
  - now apply not_cancel_event in Hr.
  - exfalso. rewrite Hev, in_app_iff in Hin. destruct Hin as [Hin | Hin];
      [now apply not_cancel_event in Hr |].
    cbn in Hin. intuition discriminate.
  - exfalso. rewrite Hev, in_app_iff in Hin. destruct Hin as [Hin | Hin];
      [now apply not_cancel_event in Hr |].
    cbn in Hin. intuition discriminate.
Qed.

Lemma completed_run_end p r :
  In (processing_complete p r) (events the_run) ->
  iterations <> 0
  /\ processed_data the_run
     = expected title_col abstract_col prompt_template provider threshold max_records
                provider_call data (Z.to_nat iterations)
  /\ p = Z.of_nat (List.length (processed_data the_run)) / iterations.
Proof.
  intros Hin.
  destruct (run_ends title_col abstract_col prompt_template provider threshold max_records
              iterations provider_call cancel_at data)
    as [_ _ Hc | s e Hb Hr Hev | k pre Hk Hb Hev Hpre | s Hb Hr _ _
        | s Hi Hb Hr Hpd Hsame Hev | s _ Hb Hr Hev].
  - rewrite forallb_forall in Hc. specialize (Hc _ Hin). discriminate.
  - exfalso. rewrite Hev, in_app_iff in Hin. destruct Hin as [Hin | [Hin | []]];
      [now apply base_no_complete in Hin | discriminate].
  - now apply base_no_complete in Hin.
  - now apply base_no_complete in Hin.
  - rewrite Hev, in_app_iff in Hin. destruct Hin as [Hin | Hin];
      [now apply base_no_complete in Hin |].
    cbn in Hin. rewrite Hsame.
    destruct Hin as [H | [H | [H | [H | [H | []]]]]]; try discriminate.
    injection H as <- _. auto.
  - exfalso. rewrite Hev, in_app_iff in Hin. destruct Hin as [Hin | Hin];
      [now apply base_no_complete in Hin |].
    cbn in Hin. intuition discriminate.
Qed.
End RunTheorems.

(** ** The progress values of a whole run *)


Lemma sorted_task_progress (t : Z) (tail : list Z) :
  0 < t -> tail = [] \/ tail = [100] ->
  forall k a,
    (a + k <= Z.to_nat t + 1)%nat ->
    Sorted Z.le (map (fun c => progress_of (Z.of_nat c) t) (seq a k) ++ tail).
Proof.
  intros Ht Htail. induction k as [| k IH]; intros a Hk; cbn [seq map app].
  - destruct Htail as [-> | ->]; repeat constructor.
  - constructor; [apply IH; lia |].
    destruct k as [| k]; cbn [seq map app].
    + destruct Htail as [-> | ->]; constructor.
      apply progress_of_bounds; lia.
    + constructor. apply progress_of_mono; lia.
Qed.

Lemma sorted_progress_list (t : Z) (k : nat) (tail : list Z) :
  (0 < t \/ k = 0%nat) -> Z.of_nat k <= t \/ k = 0%nat ->
  tail = [] \/ tail = [100] ->
  Sorted Z.le (0 :: task_progress t k ++ tail).
Proof.
  intros Ht Hk Htail. unfold task_progress.
  destruct k as [| k].
  - cbn. destruct Htail as [-> | ->]; repeat constructor. lia.
  - assert (0 < t) by lia. assert (Z.of_nat (S k) <= t) by lia.
    constructor; [apply sorted_task_progress; try assumption; lia |].
    cbn [seq map app]. constructor. apply progress_of_bounds; lia.
Qed.

Section RunProgress.
Variables title_col abstract_col : string.
Variable prompt_template : option string.
Variable provider : string.
Variable threshold : pyfloat.
Variable max_records : Z.
Variable iterations : Z.
Variable provider_call : bool -> Z -> nat -> result pyval.
Variable cancel_at : option nat.
Variable data : list Row.

Local Abbreviation the_run :=
  (run title_col abstract_col prompt_template provider threshold max_records iterations
       provider_call cancel_at (Ok data)).
Local Abbreviation total :=
  (effective_total max_records (Z.of_nat (List.length data)) * iterations).

Lemma progress_so_far_emit t e st :
  (forall p, e <> progress_percentage p) ->
  progress_so_far t st -> progress_so_far t (emit e st).
Proof.
  intros He [H0 H]. split; [exact H0 |].
  cbn [emit events completed_tasks]. rewrite progress_values_app, H.
  destruct e; cbn; rewrite ?app_nil_r; try reflexivity. now destruct (He p).
Qed.

Lemma run_progress :
  exists tail,
    progress_values (events the_run)
    = 0 :: task_progress total (Z.to_nat (completed_tasks the_run)) ++ tail
    /\ (tail = [] \/ tail = [100])
    /\ (forall p r, In (processing_complete p r) (events the_run) -> tail = [100])
    /\ 0 <= completed_tasks the_run
    /\ (completed_tasks the_run = 0 \/ (completed_tasks the_run <= total /\ 0 < total)).
Proof.
  unfold run, run_body.
  destruct (Z.of_nat (List.length data) =? 0) eqn:Hlen.
  - exists []. cbn. repeat split; auto; try lia. intros p r H. intuition discriminate.
  - set (st1 := log_if _ _ _).
    set (n := Z.to_nat iterations).
    assert (Hst1 : completed_tasks st1 = 0 /\ progress_values (events st1) = [0]
                   /\ base st1 /\ running st1 /\ processed_data st1 = []).
    { unfold st1, log_if. destruct (_ && _); repeat split; reflexivity. }
    destruct Hst1 as (Hc1 & Hp1 & Hb1 & Hr1 & Hd1).
    (* the loops *)
    assert (Hloops :
      let o := iteration_loop title_col abstract_col prompt_template provider threshold
                 max_records provider_call cancel_at data (Z.of_nat (List.length data))
                 total (range_from_1 iterations) st1 in
      progress_so_far total (final o)
      /\ (completed_tasks (final o) = 0
          \/ (completed_tasks (final o) <= total /\ 0 < total))
      /\ base (final o)).
    { cbv zeta. unfold range_from_1. fold n.
      assert (Hbase : base (final (iteration_loop title_col abstract_col prompt_template
                 provider threshold max_records provider_call cancel_at data
                 (Z.of_nat (List.length data)) total (map Z.of_nat (seq 1 n)) st1))).
      { pose proof (trace_loops title_col abstract_col prompt_template provider threshold
                      max_records provider_call cancel_at data
                      (Z.of_nat (List.length data)) total n st1) as Ht.
        destruct (iteration_loop _ _ _ _ _ _ _ _ _ _ _ _ _) as [s | s e]; cbn [final].
        - apply Ht. split; [exact Hb1 | right; split; [exact Hr1 | exact Hd1]].
        - apply Ht. split; [exact Hb1 | right; split; [exact Hr1 | exact Hd1]]. }
      destruct (Z_le_gt_dec iterations 0) as [Hle | Hgt].
      - assert (n = 0%nat) as Hn0 by (unfold n; lia). rewrite Hn0 in *.
        cbn [seq map iteration_loop final] in *.
        split; [| split; [left; exact Hc1 | exact Hbase]].
        split; [lia |]. rewrite Hp1, Hc1. reflexivity.
      - assert (Hn : Z.of_nat n = iterations) by (unfold n; lia).
        pose proof (prog_loops title_col abstract_col prompt_template provider threshold
                      max_records provider_call cancel_at data n st1) as Hp.
        rewrite Hn in Hp.
        destruct Hp as [Hps Hct].
        { split; [split; [lia |] | lia]. rewrite Hp1, Hc1. reflexivity. }
        split; [exact Hps | split; [| exact Hbase]].
        destruct Hps as [H0 _].
        destruct (Z.eq_dec (completed_tasks
                    (final (iteration_loop title_col abstract_col prompt_template
                       provider threshold max_records provider_call cancel_at data
                       (Z.of_nat (List.length data)) total (map Z.of_nat (seq 1 n)) st1))) 0);
          [left; assumption | right; lia]. }
    cbv zeta in Hloops.
    destruct (iteration_loop _ _ _ _ _ _ _ _ _ _ _ _ _) as [s | s e];
      cbn [and_then final] in *; destruct Hloops as ([H0 Hpv] & Hct & Hb).
    + unfold finish, read_flag. cbn [fst snd].
      destruct (match cancel_at with Some _ => _ | None => _ end).
      * exists []. cbn [count_read events completed_tasks]. rewrite app_nil_r.
        repeat split; auto. intros p r Hin. now apply base_no_complete in Hin.
      * exists [100].
        destruct (iterations =? 0); cbn [emit log events completed_tasks count_read];
          rewrite <- ?app_assoc, progress_values_app, Hpv; cbn; auto 10.
    + exists []. cbn [emit events completed_tasks]. rewrite progress_values_app, Hpv.
      cbn. rewrite app_nil_r. repeat split; auto.
      intros p r Hin. apply in_app_iff in Hin as [Hin | [Hin | []]];
        [now apply base_no_complete in Hin | discriminate].
Qed.
End RunProgress.


Section RunSkipped.
Variables title_col abstract_col : string.
Variable prompt_template : option string.
Variable provider : string.
Variable threshold : pyfloat.
Variable max_records : Z.
Variable iterations : Z.
Variable provider_call : bool -> Z -> nat -> result pyval.
Variable cancel_at : option nat.
Variable data : list Row.
Variable j : nat.
Variable row_j : Row.
Hypothesis H_row : nth_error data j = Some row_j.
Hypothesis H_empty : empty_record title_col abstract_col row_j = true.

Local Abbreviation the_run :=
  (run title_col abstract_col prompt_template provider threshold max_records iterations
       provider_call cancel_at (Ok data)).

Lemma never_requested_emit e st :
  (forall b it, e <> ai_request b it j) ->
  never_requested j row_j st -> never_requested j row_j (emit e st).
Proof.
  intros He [Hreq Hrows]. split; [| exact Hrows].
  intros b it. cbn [emit events]. rewrite in_app_iff.
  intros [H | [H | []]]; [now apply (Hreq b it) | now apply (He b it)].
Qed.

Lemma run_never_requested : never_requested j row_j the_run.
Proof.
  unfold run, run_body.
  destruct (Z.of_nat (List.length data) =? 0).
  - split; [| intros r []]. intros b it. cbn. intuition discriminate.
  - set (st1 := log_if _ _ _).
    assert (H1 : never_requested j row_j st1).
    { unfold st1, log_if. split; [| destruct (_ && _); intros r []].
      intros b it. destruct (_ && _); cbn; intuition discriminate. }
    pose proof (skipped_loops title_col abstract_col prompt_template provider threshold
                  max_records provider_call cancel_at data (Z.of_nat (List.length data))
                  (effective_total max_records (Z.of_nat (List.length data)) * iterations)
                  (Z.to_nat iterations) j row_j H_row H_empty st1 H1) as Hloops.
    unfold range_from_1.
    destruct (iteration_loop _ _ _ _ _ _ _ _ _ _ _ _ _) as [s | s e];
      cbn [and_then final] in *.
    + unfold finish, read_flag. cbn [fst snd].
      destruct (match cancel_at with Some _ => _ | None => _ end).
      * exact Hloops.
      * destruct (iterations =? 0); unfold log;
          repeat (apply never_requested_emit; [discriminate |]); exact Hloops.
    + apply never_requested_emit; [discriminate | exact Hloops].
Qed.
End RunSkipped.

(** C8. A record whose title and abstract are both empty is never sent
    to the AI processor; every row of the results that comes from it is
    the row with score 0 and [is_relevant = False] of iteration 1; and in
    a run that completes (with at least one iteration, the record being
    within the record cap) the results hold exactly one such row, so none
    for the iterations 2..N. *)
Theorem empty_record_only_in_first_iteration
        (title_col abstract_col : string) (prompt_template : option string)
        (provider : string) (threshold : pyfloat) (max_records iterations : Z)
        (provider_call : bool -> Z -> nat -> result pyval) (cancel_at : option nat)
        (data : list Row) (j : nat) (row : Row) :
  nth_error data j = Some row ->
  empty_record title_col abstract_col row = true ->
  let st := run title_col abstract_col prompt_template provider threshold max_records
                iterations provider_call cancel_at (Ok data) in
  (forall b it, ~ In (ai_request b it j) (events st))
  /\ (forall r, In r (processed_data st) -> row_index r = j -> r = zero_row j row 1)
  /\ (forall p c,
         In (processing_complete p c) (events st) ->
         1 <= iterations -> capped max_records j = false ->
         rows_of j (processed_data st) = [zero_row j row 1]).
Proof.
  intros Hrow Hempty st.
  destruct (run_never_requested title_col abstract_col prompt_template provider threshold
              max_records iterations provider_call cancel_at data j row Hrow Hempty)
    as [Hreq Hrows].
  split; [exact Hreq | split; [exact Hrows |]].
  intros p c Hin Hit Hcap.
  apply completed_run_end in Hin as (_ & Hpd & _).
  unfold st. rewrite Hpd. unfold expected.
  apply rows_of_expected; try assumption; [| lia].
  assert (j < List.length data)%nat by (apply nth_error_Some; congruence).
  unfold capped in Hcap. unfold handled_count.
  destruct (0 <? max_records); cbn in Hcap; lia.
Qed.

(** C10. The count reported by the completion signal is the number of
    rows collected divided (rounding down) by the number of iterations.
    With no record cap it is the number of input records when every
    record has a title or an abstract (and there is at least one
    iteration), and it is smaller than the number of input records when
    some record has neither and there are at least two iterations. *)
Theorem processed_count_reported
        (title_col abstract_col : string) (prompt_template : option string)
        (provider : string) (threshold : pyfloat) (max_records iterations : Z)
        (provider_call : bool -> Z -> nat -> result pyval) (cancel_at : option nat)
        (data : list Row) (p r : Z) :
  let st := run title_col abstract_col prompt_template provider threshold max_records
                iterations provider_call cancel_at (Ok data) in
  In (processing_complete p r) (events st) ->
  p = Z.of_nat (List.length (processed_data st)) / iterations
  /\ (max_records = 0 -> 1 <= iterations ->
      (forall row, In row data -> empty_record title_col abstract_col row = false) ->
      p = Z.of_nat (List.length data))
  /\ (max_records = 0 -> 1 < iterations ->
      (exists row, In row data /\ empty_record title_col abstract_col row = true) ->
      p < Z.of_nat (List.length data)).
Proof.
  intros st Hin.
  apply completed_run_end in Hin as (Hi & Hpd & Hp).
  fold st in Hpd, Hp. split; [exact Hp | split].
  - intros Hmax Hit Hall. rewrite Hp, Hpd. unfold expected.
    rewrite expected_length_full by assumption.
    rewrite Nat2Z.inj_mul, Z2Nat.id by lia.
    rewrite Z.mul_comm. apply Z.div_mul. lia.
  - intros Hmax Hit Hex. rewrite Hp, Hpd. unfold expected.
    pose proof (expected_length_lt title_col abstract_col prompt_template provider threshold
                  max_records provider_call data (Z.to_nat iterations) Hmax Hex ltac:(lia))
      as Hlt.
    apply Z.div_lt_upper_bound; [lia |].
    apply Nat2Z.inj_lt in Hlt. rewrite Nat2Z.inj_mul, Z2Nat.id in Hlt by lia. lia.
Qed.



Lemma nth_error_map_seq {A : Type} (f : nat -> A) (k : nat) : forall a i p,
  nth_error (map f (seq a k)) i = Some p -> p = f (a + i)%nat /\ (i < k)%nat.
Proof.
  induction k as [| k IH]; intros a [| i] p H; cbn in H; try discriminate.
  - injection H as <-. rewrite Nat.add_0_r. split; [reflexivity | lia].
  - apply IH in H as [-> Hi]. split; [f_equal; lia | lia].
Qed.

(** C7. The progress values of a run are: 0 at the start; then, as each
    record is started (before it is scored), the value
    [int((completed_tasks / total_tasks) * 100)] computed in binary64,
    for [completed_tasks] = 1, 2, ... and
    [total_tasks = effective_total * iterations], each at most 100; and
    100 once more when the run completes. The sequence is
    non-decreasing, and the value 100 is already sent when the last task
    is started. *)
Theorem progress_of_a_run
        (title_col abstract_col : string) (prompt_template : option string)
        (provider : string) (threshold : pyfloat) (max_records iterations : Z)
        (provider_call : bool -> Z -> nat -> result pyval) (cancel_at : option nat)
        (data : list Row) :
  let st := run title_col abstract_col prompt_template provider threshold max_records
                iterations provider_call cancel_at (Ok data) in
  let total_tasks := effective_total max_records (Z.of_nat (List.length data)) * iterations in
  exists ps tail,
    progress_values (events st) = 0 :: ps ++ tail
    /\ List.length ps = Z.to_nat (completed_tasks st)
    /\ 0 <= completed_tasks st
    /\ (forall k p, nth_error ps k = Some p ->
                    progress_value (Z.of_nat (S k)) total_tasks = Ok p /\ 0 <= p <= 100)
    /\ (tail = [] \/ tail = [100])
    /\ (forall x y, In (processing_complete x y) (events st) -> tail = [100])
    /\ Sorted Z.le (progress_values (events st))
    /\ (0 < total_tasks -> completed_tasks st = total_tasks -> In 100 ps).
Proof.
  intros st total_tasks.
  destruct (run_progress title_col abstract_col prompt_template provider threshold
              max_records iterations provider_call cancel_at data)
    as (tail & Hpv & Htail & Hcomplete & H0 & Hct).
  fold st total_tasks in Hpv, Hcomplete, H0, Hct.
  exists (task_progress total_tasks (Z.to_nat (completed_tasks st))), tail.
  split; [exact Hpv | split; [| split; [exact H0 | split; [| split; [exact Htail |
    split; [exact Hcomplete | split]]]]]].
  - unfold task_progress. now rewrite length_map, length_seq.
  - intros k p Hk. unfold task_progress in Hk.
    apply nth_error_map_seq in Hk as [-> Hlt].
    assert (Hb : 0 <= Z.of_nat (1 + k) <= total_tasks /\ 0 < total_tasks) by lia.
    destruct Hb as [Hb Ht]. change (S k) with (1 + k)%nat.
    split; [now apply progress_value_ok | now apply progress_of_bounds].
  - rewrite Hpv. apply sorted_progress_list; [lia | lia | exact Htail].
  - intros Ht Hfull. unfold task_progress.
    apply in_map_iff. exists (Z.to_nat total_tasks). split.
    + rewrite Z2Nat.id by lia. now apply progress_of_full.
    + apply in_seq. rewrite Hfull. lia.
Qed.



(** C9. The score the parser returns is a function of the text, of
    [json.loads] and of one bit of the configuration of the processor:
    whether the provider is "google" with a model whose name contains
    "thinking" or starts with "gemini-2". Two configurations that agree
    on that bit give the same score for every text. *)
Theorem parse_result_depends_on_google_thinking
        (json_loads : string -> result pyval)
        (provider1 model1 provider2 model2 text : string) :
  google_thinking provider1 model1 = google_thinking provider2 model2 ->
  _parse_result json_loads provider1 model1 text
  = _parse_result json_loads provider2 model2 text.
Proof.
  intros H. unfold _parse_result, parse_body, google_final_part.
  unfold google_thinking in H. now rewrite H.
Qed.


(** ** The retry loops *)

Lemma requests_app (l1 l2 : list Retry.retry_event) :
  Retry.requests (l1 ++ l2) = (Retry.requests l1 + Retry.requests l2)%nat.
Proof. unfold Retry.requests. now rewrite filter_app, length_app. Qed.

(** When every request fails with a message that is not a rate limit,
    the loop of [_get_score_openai] sends one request per round, always
    with the same model, and is still running after any number of
    rounds. *)
Lemma openai_loop_keeps_retrying (json_loads : string -> result pyval) (init_ok : bool)
      (message : string) (st : Retry.processor) :
  Retry.is_rate_limit message = false ->
  Retry.openai_client st = true ->
  forall rounds n log,
  exists log',
    Retry.openai_loop json_loads init_ok (always_fails message) rounds st n log
    = Retry.Looping st (log ++ log')
    /\ Retry.requests log' = rounds
    /\ Forall (fun e => e = Retry.Request (Retry.model st) \/ e = Retry.Sleep 2) log'.
Proof.
  intros Hrate Hclient. induction rounds as [| rounds IH]; intros n log.
  - exists []. cbn. rewrite app_nil_r. repeat split. constructor.
  - cbn [Retry.openai_loop]. rewrite Hclient. cbv beta iota zeta. rewrite Hclient.
    cbn [negb].
    change (always_fails message (Retry.model st) n) with (Retry.ReplyError message).
    cbv iota. rewrite Hrate.
    destruct (IH (S n) ((log ++ [Retry.Request (Retry.model st)]) ++ [Retry.Sleep 2]))
      as (log' & Heq & Hreq & Hall).
    exists (Retry.Request (Retry.model st) :: Retry.Sleep 2 :: log').
    rewrite Heq, <- !app_assoc. cbn [app]. split; [reflexivity | split].
    + unfold Retry.requests in *. cbn. now rewrite Hreq.
    + constructor; [left; reflexivity | constructor; [right; reflexivity | exact Hall]].
Qed.

(** The same for [_get_score_deepseek] when every reply is a 400 that
    names the model: the model is replaced by "deepseek-chat" and the
    request repeated, without a pause and without an end. *)
Lemma deepseek_loop_keeps_retrying (json_loads : string -> result pyval) :
  forall rounds n log model,
  exists log',
    Retry.deepseek_loop json_loads always_400 (S rounds) (deepseek_processor model) n log
    = Retry.Looping (deepseek_processor "deepseek-chat") (log ++ log')
    /\ Retry.requests log' = S rounds
    /\ Forall (fun e => exists m, e = Retry.Request m) log'.
Proof.
  induction rounds as [| rounds IH]; intros n log model.
  - exists [Retry.Request model]. cbn. repeat split. repeat constructor. now exists model.
  - remember (S rounds) as r. cbn [Retry.deepseek_loop]. subst r.
    unfold always_400 at 1. cbn [Z.eqb Pos.eqb].
    change (contains "model parameter" (lower "Model Not Found")
            || contains "model not found" (lower "Model Not Found")) with true.
    cbv iota.
    destruct (IH (S n) (log ++ [Retry.Request model]) "deepseek-chat"%string)
      as (log' & Heq & Hreq & Hall).
    change (Retry.set_model "deepseek-chat" (deepseek_processor model))
      with (deepseek_processor "deepseek-chat").
    change (Retry.model (deepseek_processor model)) with model.
    exists (Retry.Request model :: log').
    rewrite Heq, <- app_assoc. cbn [app]. split; [reflexivity | split].
    + unfold Retry.requests in *. cbn. now rewrite Hreq.
    + constructor; [now exists model | exact Hall].
Qed.

(** The function for the reasoning models gives up at once on an error
    that is neither a missing model nor a rate limit, and tries the
    fallback model once on a missing model. *)
Lemma reasoning_gives_up_on_other_errors (json_loads : string -> result pyval)
      (init_ok : bool) (chat_create : string -> nat -> Retry.sdk_reply)
      (rounds : nat) (st : Retry.processor) (message : string) :
  Retry.openai_client st = true ->
  chat_create (Retry.model st) O = Retry.ReplyError message ->
  contains "model not found" (lower message) = false ->
  Retry.is_rate_limit message = false ->
  Retry._get_score_with_prompt_openai_reasoning json_loads init_ok chat_create (S rounds) st
  = Retry.Returned (PInt 4) st [Retry.Request (Retry.model st)].
Proof.
  intros Hclient Hreply Hmodel Hrate.
  unfold Retry._get_score_with_prompt_openai_reasoning. cbn [Retry.reasoning_loop].
  rewrite Hclient. cbv beta iota zeta. rewrite Hclient. cbn [negb app].
  now rewrite Hreply, Hmodel, Hrate.
Qed.

Lemma reasoning_falls_back_once (json_loads : string -> result pyval)
      (init_ok : bool) (chat_create : string -> nat -> Retry.sdk_reply)
      (rounds : nat) (st : Retry.processor) (message message' : string) :
  Retry.openai_client st = true ->
  chat_create (Retry.model st) O = Retry.ReplyError message ->
  contains "model not found" (lower message) = true ->
  chat_create "gpt-4o"%string 1%nat = Retry.ReplyError message' ->
  exists st',
    Retry._get_score_with_prompt_openai_reasoning json_loads init_ok chat_create (S rounds) st
    = Retry.Returned (PInt 4) st' [Retry.Request (Retry.model st); Retry.Request "gpt-4o"]
    /\ Retry.model st' = Retry.model st.
Proof.
  intros Hclient Hreply Hmodel Hfallback.
  unfold Retry._get_score_with_prompt_openai_reasoning. cbn [Retry.reasoning_loop].
  rewrite Hclient. cbv beta iota zeta. rewrite Hclient. cbn [negb app].
  rewrite Hreply, Hmodel.
  cbn [Retry.set_model Retry.model]. rewrite Hfallback.
  eexists. split; reflexivity.
Qed.

(** C4 (the code departs from the claim). With an API key that the
    OpenAI server rejects, every request of [_get_score_openai] fails
    with an authentication error; the function does not return the
    default score: after any number of rounds it has sent that many
    requests and is still in its loop. *)
Theorem openai_authentication_failure_is_retried (rounds : nat) :
  exists log,
    Retry._get_score_openai json_never true (always_fails invalid_key_message) rounds
                            (openai_processor "gpt-4o")
    = Retry.Looping (openai_processor "gpt-4o") log
    /\ Retry.requests log = rounds.
Proof.
  destruct (openai_loop_keeps_retrying json_never true invalid_key_message
              (openai_processor "gpt-4o") eq_refl eq_refl rounds O [])
    as (log & Heq & Hreq & _).
  exists log. split; [exact Heq | exact Hreq].
Qed.

(** C6 (the code departs from the claim). With a model the OpenAI server
    does not know, every request of [_get_score_openai] fails with a
    "model not found" error; no fallback model is ever substituted and
    the function does not return the default score: after any number of
    rounds it has sent that many requests, all with the unknown model,
    and is still in its loop. *)
Theorem openai_unknown_model_is_retried (rounds : nat) :
  exists log,
    Retry._get_score_openai json_never true (always_fails unknown_model_message) rounds
                            (openai_processor "gpt-4x")
    = Retry.Looping (openai_processor "gpt-4x") log
    /\ Retry.requests log = rounds
    /\ Forall (fun e => e = Retry.Request "gpt-4x" \/ e = Retry.Sleep 2) log.
Proof.
  destruct (openai_loop_keeps_retrying json_never true unknown_model_message
              (openai_processor "gpt-4x") eq_refl eq_refl rounds O [])
    as (log & Heq & Hreq & Hall).
  exists log. split; [exact Heq | split; [exact Hreq | exact Hall]].
Qed.


(** ** The claims at sample inputs *)

Lemma cancel_event_in l : existsb is_cancel l = true -> In cancel_event l.
Proof.
  intros [e [Hin He]]%existsb_exists.
  destruct e as [m | | | | | |]; try discriminate.
  destruct m; try discriminate. exact Hin.
Qed.

Lemma complete_event_in l p r :
  existsb (fun e => match e with
                    | processing_complete x y => (x =? p) && (y =? r)
                    | _ => false
                    end) l = true ->
  In (processing_complete p r) l.
Proof.
  intros [e [Hin He]]%existsb_exists.
  destruct e; try discriminate.
  apply andb_prop in He as [->%Z.eqb_eq ->%Z.eqb_eq]. exact Hin.
Qed.



(** C2 at a text made of blanks. *)
Lemma blank_text_witness :
  1 <= _parse_result json_never "openai" "gpt-4o" "   " <= 7
  /\ _parse_result json_never "openai" "gpt-4o" "   " = 4.
Proof.
  destruct (parse_result_in_range json_never "openai" "gpt-4o" "   ") as [H1 H2].
  split; [exact H1 | apply H2; reflexivity].
Defined.

(** C3, as stated, fails: "4.6" gives 4, not 5. *)
Lemma four_point_six_is_truncated :
  _parse_result json_never "openai" "gpt-4o" "4.6" = 4
  /\ _parse_result json_never "openai" "gpt-4o" "4.6" <> 5.
Proof. split; [vm_compute; reflexivity | vm_compute; discriminate]. Qed.

Lemma four_point_six_witness :
  _parse_result json_never "openai" "gpt-4o" "4.6" = 4.
Proof.
  apply (parse_numeral json_never "openai" "gpt-4o" false "4" "6");
    [discriminate | reflexivity | reflexivity | cbn; lia | cbn; lia].
Defined.



(** C7, as stated, fails: the value sent for 29 tasks out of 100 is 28
    where floor(29 / 100 * 100) is 29; and in a run over one record that
    is cancelled while the record is scored, the value 100 has been sent
    although the run does not complete. *)
Lemma progress_is_not_the_exact_floor :
  progress_value 29 100 = Ok 28
  /\ 29 * 100 / 100 = 29
  /\ progress_values (events late_cancelled_run) = [0; 100]
  /\ existsb is_complete (events late_cancelled_run) = false.
Proof. repeat split; vm_compute; reflexivity. Qed.

Lemma progress_witness :
  Sorted Z.le (progress_values (events full_run)).
Proof.
  destruct (progress_of_a_run "Title" "Abstract" None "openai" threshold_4 0 3
              always_6 None five_records) as (ps & tail & _ & _ & _ & _ & _ & _ & H & _).
  exact H.
Defined.

(** C8 at the second of the five sample records. *)
Lemma empty_record_witness :
  rows_of 1 (processed_data full_run) = [zero_row 1 (sheet_row "" "") 1].
Proof.
  assert (Hc : In (processing_complete 4 12) (events full_run))
    by (apply complete_event_in; vm_compute; reflexivity).
  destruct (empty_record_only_in_first_iteration "Title" "Abstract" None "openai"
              threshold_4 0 3 always_6 None five_records 1 (sheet_row "" "")
              eq_refl eq_refl) as (_ & _ & H).
  exact (H 4 12 Hc ltac:(lia) eq_refl).
Defined.

(** C9, as stated, fails: the same text gives 5 with a Google thinking
    model and 3 with another configuration. *)
Lemma google_thinking_changes_the_score :
  _parse_result json_never "google" "gemini-2.0-flash" "Let me analyze 3. Final answer: 5"
  <> _parse_result json_never "openai" "gpt-4o" "Let me analyze 3. Final answer: 5".
Proof. vm_compute. discriminate. Qed.

Lemma same_bit_witness :
  _parse_result json_never "openai" "gpt-4o" "Let me analyze 3. Final answer: 5"
  = _parse_result json_never "anthropic" "claude-3" "Let me analyze 3. Final answer: 5".
Proof.
  apply (parse_result_depends_on_google_thinking json_never "openai" "gpt-4o"
           "anthropic" "claude-3"). reflexivity.
Defined.

(** C10 at the five sample records and three iterations. *)
Lemma processed_count_witness :
  In (processing_complete 4 12) (events full_run)
  /\ 4 = Z.of_nat (List.length (processed_data full_run)) / 3
  /\ 4 < Z.of_nat (List.length five_records).
Proof.
  assert (H : In (processing_complete 4 12) (events full_run))
    by (apply complete_event_in; vm_compute; reflexivity).
  destruct (processed_count_reported "Title" "Abstract" None "openai" threshold_4 0 3
              always_6 None five_records 4 12 H) as (H1 & _ & H3).
  split; [exact H | split; [exact H1 |]].
  apply H3; [reflexivity | lia |].
  exists (sheet_row "" ""). split; [right; left; reflexivity | reflexivity].
Defined.
